(** * logainmneacha: descriptor extraction and CSV export (src/main.py)

    A shallow embedding of [main.py]: the two descriptor parsers
    [parse_0_txt] and [parse_8_txt], the record builder [process_directory],
    the exporter [write_csv] and the walker [main].

    Python values that reach a record are strings or floats; a record is a
    Python [dict] keyed by strings, here a [gmap string value].  Calls that
    can raise run in a small monad [M] that carries either a returned value
    or the raised exception, together with the observable effects (console
    lines and rows handed to the csv writer) produced so far. *)

From Stdlib Require Import PrimFloat.
From stdpp Require Import gmap strings list fin_maps.

Set Warnings "-register-all".

Open Scope string_scope.
Open Scope list_scope.

(** ** Python values, records and exceptions *)

Inductive value : Type :=
| VStr (s : string)
| VFloat (f : PrimFloat.float).

Abbreviation dict := (gmap string value).

Inductive exn : Type :=
| FileNotFoundError
| IsADirectoryError
| NotADirectoryError
| PermissionError
| OSError
| ValueError.

(** [IOError] is an alias of [OSError]; the file-system errors are its
    subclasses, [ValueError] is not. *)
Definition is_IOError (e : exn) : bool :=
  match e with
  | FileNotFoundError | IsADirectoryError | NotADirectoryError
  | PermissionError | OSError => true
  | ValueError => false
  end.

(** ** Observable effects *)

(** One constructor per [print] site of the source; the interpolated
    exception text is not kept. *)
Inductive message : Type :=
| MsgXmlError (file_path : string)
| MsgInvalidCoords (file_path : string)
| MsgConvertError (file_path : string)
| MsgNoProjection (file_path : string)
| MsgNoElement (elem_name file_path : string)
| MsgSkipMissing (dirpath : string)
| MsgSkipParse (dirpath : string)
| MsgWritten (csv_file : string)
| MsgIOError (csv_file : string)
| MsgSkipNoMenuTab (dir_path : string)
| MsgSkipNotDir (dir_path : string).

Inductive event : Type :=
| Print (m : message)
| CsvOpen (csv_file : string)
| CsvRow (csv_file : string) (row : list value).

(** ** The effect monad *)

Inductive outcome (A : Type) : Type :=
| Ret (a : A)
| Raise (e : exn).
Arguments Ret {A} a.
Arguments Raise {A} e.

Definition M (A : Type) : Type := (outcome A * list event)%type.

Definition ret {A} (a : A) : M A := (Ret a, []).
Definition raise {A} (e : exn) : M A := (Raise e, []).
Definition emit (ev : event) : M unit := (Ret tt, [ev]).
Definition print (m : message) : M unit := emit (Print m).

Definition bind {A B} (m : M A) (k : A -> M B) : M B :=
  match m with
  | (Ret a, l) => let '(o, l') := k a in (o, l ++ l')
  | (Raise e, l) => (Raise e, l)
  end.

Notation "x <- m ;; k" := (bind m (fun x => k))
  (at level 100, m at next level, right associativity).
Notation "m ;;; k" := (bind m (fun _ => k))
  (at level 100, right associativity).

(** [try: body except IOError: handler] *)
Definition try_except_IOError {A} (body : M A) (handler : M A) : M A :=
  match body with
  | (Raise e, l) =>
      if is_IOError e then let '(o, l') := handler in (o, l ++ l')
      else (Raise e, l)
  | done => done
  end.

(** [for x in xs: acc = body(acc, x)] *)
Fixpoint for_each {A B} (body : B -> A -> M B) (xs : list A) (acc : B) : M B :=
  match xs with
  | [] => ret acc
  | x :: xs' => acc' <- body acc x ;; for_each body xs' acc'
  end.

(** ** The file system *)

(** What a path names: a regular file that can be opened and read, a
    regular file on which [open] or [read] raises [e] (no permission, a
    failing device), or a directory. *)
Inductive node : Type :=
| File (content : string)
| Unreadable (e : exn)
| Directory (entries : list string).

Abbreviation filesystem := (gmap string node).

Definition os_path_exists (fs : filesystem) (p : string) : bool :=
  match fs !! p with Some _ => true | None => false end.

Definition os_path_isdir (fs : filesystem) (p : string) : bool :=
  match fs !! p with Some (Directory _) => true | _ => false end.

Definition os_listdir (fs : filesystem) (p : string) : M (list string) :=
  match fs !! p with
  | Some (Directory entries) => ret entries
  | Some (File _) | Some (Unreadable _) => raise NotADirectoryError
  | None => raise FileNotFoundError
  end.

(** [open(p, 'r', encoding='iso-8859-1')] followed by [f.read()]: every
    byte decodes under ISO-8859-1, so what can raise is the operating
    system, on the open or on the read. *)
Definition open_read (fs : filesystem) (p : string) : M string :=
  match fs !! p with
  | Some (File content) => ret content
  | Some (Unreadable e) => raise e
  | Some (Directory _) => raise IsADirectoryError
  | None => raise FileNotFoundError
  end.

(** [open(p, 'w', ...)]: creates or truncates [p]; refused on a directory
    and on the empty path.  The other ways the operating system can
    refuse or interrupt a write (a missing parent directory, a path it
    rejects, a full disk after the file is open) are outside this
    model: statements about [write_csv] speak of these two refusals and
    of the case where the open succeeds. *)
Definition open_write (fs : filesystem) (p : string) : M unit :=
  if os_path_isdir fs p then raise IsADirectoryError
  else if String.eqb p "" then raise FileNotFoundError
  else emit (CsvOpen p).

Fixpoint endswith_sep (s : string) : bool :=
  match s with
  | "" => false
  | String _ "" => String.eqb s "/"
  | String _ s' => endswith_sep s'
  end.

(** [posixpath.join] on two components *)
Definition os_path_join (a b : string) : string :=
  if String.prefix "/" b then b
  else if String.eqb a "" || endswith_sep a then a +:+ b
  else a +:+ "/" +:+ b.

(** ** Markup elements ([xml.etree.ElementTree]) *)

Inductive Element : Type :=
| mkElement (tag : string) (attrib : gmap string string)
            (children : list Element).

Definition tag (e : Element) : string :=
  match e with mkElement t _ _ => t end.
Definition attrib (e : Element) : gmap string string :=
  match e with mkElement _ a _ => a end.
Definition children (e : Element) : list Element :=
  match e with mkElement _ _ c => c end.

(** [e.find(name)] for a plain tag name: the first direct child with
    that tag. *)
Definition find (e : Element) (name : string) : option Element :=
  List.find (fun c => String.eqb (tag c) name) (children e).

(** [e.get(key, default)] *)
Definition get (e : Element) (key default : string) : string :=
  match attrib e !! key with Some v => v | None => default end.

(** Outcome of [Transformer.from_crs(...).transform(easting, northing)]:
    the pair it returns, or the class of the exception it raises. *)
Inductive transformed : Type :=
| Transformed (longitude latitude : PrimFloat.float)
| TransformValueError
| TransformError.

(** ** The program *)

Section Program.
(** The libraries the script calls into and the file system it runs on.
    [fromstring] is [ET.fromstring] ([None] for [ET.ParseError]),
    [py_float] is the builtin [float] on a string ([None] for
    [ValueError]), and [transform] is the pyproj call from EPSG:29903 to
    EPSG:4326 with [always_xy=True]. *)
Variable fromstring : string -> option Element.
Variable py_float : string -> option PrimFloat.float.
Variable transform : PrimFloat.float -> PrimFloat.float -> transformed.
Variable fs : filesystem.

Definition parse_0_txt (file_path : string) : M (option dict) :=
  let record : dict := ∅ in
  xml_content <- open_read fs file_path ;;
  match fromstring xml_content with
  | None => print (MsgXmlError file_path) ;;; ret None
  | Some root =>
      match find root "projection" with
      | Some projection_elem =>
          let proj_x := get projection_elem "x" "" in
          let proj_y := get projection_elem "y" "" in
          let record := <["projection_x" := VStr proj_x]> record in
          let record := <["projection_y" := VStr proj_y]> record in
          let invalid :=
            print (MsgInvalidCoords file_path) ;;;
            let record := <["latitude" := VStr ""]> record in
            let record := <["longitude" := VStr ""]> record in
            ret (Some record) in
          match py_float proj_x with
          | None => invalid
          | Some easting =>
              match py_float proj_y with
              | None => invalid
              | Some northing =>
                  match transform easting northing with
                  | Transformed longitude latitude =>
                      let record := <["latitude" := VFloat latitude]> record in
                      let record := <["longitude" := VFloat longitude]> record in
                      ret (Some record)
                  | TransformValueError => invalid
                  | TransformError =>
                      print (MsgConvertError file_path) ;;;
                      let record := <["latitude" := VStr ""]> record in
                      let record := <["longitude" := VStr ""]> record in
                      ret (Some record)
                  end
              end
          end
      | None =>
          print (MsgNoProjection file_path) ;;;
          let record := <["projection_x" := VStr ""]> record in
          let record := <["projection_y" := VStr ""]> record in
          let record := <["latitude" := VStr ""]> record in
          let record := <["longitude" := VStr ""]> record in
          ret (Some record)
      end
  end.

(** The [(elem_name, key_name, attr_name)] table of [parse_8_txt]. *)
Definition elements : list (string * string * string) :=
  [ ("name", "name", "htmlText");
    ("translation", "translation", "htmlText");
    ("explanation", "description", "htmlText") ].

Definition parse_8_step (file_path : string) (root : Element)
    (record : dict) (entry : string * string * string) : M dict :=
  let '(elem_name, key_name, attr_name) := entry in
  match find root elem_name with
  | Some elem => ret (<[key_name := VStr (get elem attr_name "")]> record)
  | None =>
      print (MsgNoElement elem_name file_path) ;;;
      ret (<[key_name := VStr ""]> record)
  end.

Definition parse_8_txt (file_path : string) : M (option dict) :=
  let record : dict := ∅ in
  xml_content <- open_read fs file_path ;;
  match fromstring xml_content with
  | None => print (MsgXmlError file_path) ;;; ret None
  | Some root =>
      record <- for_each (parse_8_step file_path root) elements record ;;
      ret (Some record)
  end.

(** [{**record_0, **record_8}]: the keys of [record_8] win. *)
Definition merge (record_0 record_8 : dict) : dict :=
  record_8 ∪ record_0.

Definition process_directory (dirpath : string) : M (option dict) :=
  let file_0_txt := os_path_join dirpath "0.txt" in
  let file_8_txt := os_path_join dirpath "8.txt" in
  if negb (os_path_exists fs file_0_txt) || negb (os_path_exists fs file_8_txt)
  then print (MsgSkipMissing dirpath) ;;; ret None
  else
    record_0 <- parse_0_txt file_0_txt ;;
    record_8 <- parse_8_txt file_8_txt ;;
    match record_0, record_8 with
    | Some record_0, Some record_8 => ret (Some (merge record_0 record_8))
    | _, _ => print (MsgSkipParse dirpath) ;;; ret None
    end.

(** *** [csv.DictWriter] with its defaults ([restval] the empty string,
    [extrasaction='raise']) *)

(** A [dict] built from key/value pairs in order: a later pair replaces
    an earlier one with the same key. *)
Definition py_dict (items : list (string * value)) : dict :=
  foldl (fun d kv => <[kv.1 := kv.2]> d) ∅ items.

Definition restval : value := VStr "".

Definition dict_to_list (fieldnames : list string) (rowdict : dict)
    : M (list value) :=
  if bool_decide (dom rowdict ⊆ (list_to_set fieldnames : gset string))
  then ret (map (fun key => default restval (rowdict !! key)) fieldnames)
  else raise ValueError.

Definition writerow (csv_file : string) (fieldnames : list string)
    (rowdict : dict) : M unit :=
  row <- dict_to_list fieldnames rowdict ;;
  emit (CsvRow csv_file row).

Definition writeheader (csv_file : string) (fieldnames : list string)
    : M unit :=
  let header := py_dict (map (fun key => (key, VStr key)) fieldnames) in
  writerow csv_file fieldnames header.

(** [data.get(key, default)] with the empty string as default *)
Definition dict_get (data : dict) (key : string) : value :=
  default (VStr "") (data !! key).

Definition write_csv (data_list : list dict) (csv_file : string)
    (csv_columns : list string) : M unit :=
  try_except_IOError
    (open_write fs csv_file ;;;
     writeheader csv_file csv_columns ;;;
     for_each
       (fun (_ : unit) data =>
          let filtered_data :=
            py_dict (map (fun key => (key, dict_get data key)) csv_columns) in
          writerow csv_file csv_columns filtered_data)
       data_list tt ;;;
     print (MsgWritten csv_file))
    (print (MsgIOError csv_file)).

(** *** The walker *)

Definition csv_columns : list string :=
  [ "projection_x"; "projection_y";
    "latitude"; "longitude";
    "name"; "translation"; "description" ].

(** Truth value of a [dict]: true unless it is empty. *)
Definition dict_bool (d : dict) : bool := negb (Nat.eqb (size d) 0).

(** Truth value of what [process_directory] returns. *)
Definition truthy (record : option dict) : bool :=
  match record with
  | Some d => dict_bool d
  | None => false
  end.

Definition is_not_None (record : option dict) : bool :=
  match record with
  | Some _ => true
  | None => false
  end.

(** The body of the loop over [os.listdir(root_dir)]. *)
Definition main_step (root_dir : string) (data_list : list dict)
    (dir_name : string) : M (list dict) :=
  let dir_path := os_path_join root_dir dir_name in
  if os_path_isdir fs dir_path then
    let menu_tab_path := os_path_join dir_path "menuTabs" in
    if os_path_isdir fs menu_tab_path then
      record <- process_directory menu_tab_path ;;
      match record with
      | Some d => if truthy record then ret (data_list ++ [d]) else ret data_list
      | None => ret data_list
      end
    else print (MsgSkipNoMenuTab dir_path) ;;; ret data_list
  else print (MsgSkipNotDir dir_path) ;;; ret data_list.

Definition walk (root_dir : string) (dir_names : list string)
    (data_list : list dict) : M (list dict) :=
  for_each (main_step root_dir) dir_names data_list.

(** [main] with its local [root_dir] as an argument. *)
Definition main_from (root_dir : string) : M unit :=
  let data_list : list dict := [] in
  dir_names <- os_listdir fs root_dir ;;
  data_list <- walk root_dir dir_names data_list ;;
  let csv_file := "output.csv" in
  write_csv data_list csv_file csv_columns.

(** The script as committed: [root_dir] is the empty string. *)
Definition main : M unit := main_from "".
End Program.

(** ** A sample corpus

    Concrete stand-ins for the libraries and a small directory tree, used
    to run the program on explicit inputs. *)

Module Sample.
Definition elem (t : string) (attrs : list (string * string))
    (cs : list Element) : Element :=
  mkElement t (list_to_map attrs) cs.

Definition xml_0_ok : string :=
  "<place><projection x='315904' y='234671'/></place>".
Definition xml_0_abc : string :=
  "<place><projection x='abc' y='234671'/></place>".
Definition xml_0_no_x : string :=
  "<place><projection y='234671'/></place>".
Definition xml_0_no_projection : string := "<place/>".
Definition xml_8_ok : string :=
  "<place><name htmlText='Foo'/><translation htmlText='Bar'/><explanation htmlText='Baz'/></place>".
Definition xml_8_description : string :=
  "<place><name htmlText='Foo'/><translation htmlText='Bar'/><description htmlText='Baz'/></place>".
Definition xml_malformed : string := "<place><name htmlText='Foo'>".

Definition root_0_ok : Element :=
  elem "place" [] [elem "projection" [("x", "315904"); ("y", "234671")] []].
Definition root_0_abc : Element :=
  elem "place" [] [elem "projection" [("x", "abc"); ("y", "234671")] []].
Definition root_0_no_x : Element :=
  elem "place" [] [elem "projection" [("y", "234671")] []].
Definition root_0_no_projection : Element := elem "place" [] [].
Definition root_8_ok : Element :=
  elem "place" []
    [ elem "name" [("htmlText", "Foo")] [];
      elem "translation" [("htmlText", "Bar")] [];
      elem "explanation" [("htmlText", "Baz")] [] ].
Definition root_8_description : Element :=
  elem "place" []
    [ elem "name" [("htmlText", "Foo")] [];
      elem "translation" [("htmlText", "Bar")] [];
      elem "description" [("htmlText", "Baz")] [] ].

(** What [ET.fromstring] returns on the sample documents; any other
    text is treated as malformed. *)
Definition documents : list (string * Element) :=
  [ (xml_0_ok, root_0_ok); (xml_0_abc, root_0_abc);
    (xml_0_no_x, root_0_no_x);
    (xml_0_no_projection, root_0_no_projection);
    (xml_8_ok, root_8_ok); (xml_8_description, root_8_description) ].

Definition fromstring (s : string) : option Element :=
  snd <$> List.find (fun d => String.eqb (fst d) s) documents.

(** [float] on the sample coordinate strings: the two numerals are
    accepted, every other string (the empty one included) is refused. *)
Definition py_float (s : string) : option PrimFloat.float :=
  if String.eqb s "315904" then Some 315904%float
  else if String.eqb s "234671" then Some 234671%float
  else None.

(** A stand-in for the transform, defined at the one sample point; the
    degrees it returns are illustrative. *)
Definition transform (easting northing : PrimFloat.float) : transformed :=
  if PrimFloat.eqb easting 315904%float && PrimFloat.eqb northing 234671%float
  then Transformed (-6.25)%float 53.375%float
  else TransformError.

Definition paths (l : list (string * node)) : filesystem := list_to_map l.

(** [corpus/a] is complete, [corpus/b] lacks [8.txt], [corpus/c] has a
    malformed [0.txt], [corpus/d] has no [menuTabs], [corpus/notes] is a
    plain file. *)
Definition corpus : filesystem :=
  paths
    [ ("corpus", Directory ["a"; "b"; "c"; "d"; "notes"]);
      ("corpus/a", Directory ["menuTabs"]);
      ("corpus/a/menuTabs", Directory ["0.txt"; "8.txt"]);
      ("corpus/a/menuTabs/0.txt", File xml_0_ok);
      ("corpus/a/menuTabs/8.txt", File xml_8_ok);
      ("corpus/b", Directory ["menuTabs"]);
      ("corpus/b/menuTabs", Directory ["0.txt"]);
      ("corpus/b/menuTabs/0.txt", File xml_0_ok);
      ("corpus/c", Directory ["menuTabs"]);
      ("corpus/c/menuTabs", Directory ["0.txt"; "8.txt"]);
      ("corpus/c/menuTabs/0.txt", File xml_malformed);
      ("corpus/c/menuTabs/8.txt", File xml_8_ok);
      ("corpus/d", Directory []);
      ("corpus/notes", File "see a") ].

(** Degraded descriptors: [e] has a non-numeric easting and a
    [description] element, [f] has no [projection], [g] has a
    [projection] without [x]. *)
Definition degraded : filesystem :=
  paths
    [ ("corpus", Directory ["e"; "f"; "g"]);
      ("corpus/e", Directory ["menuTabs"]);
      ("corpus/e/menuTabs", Directory ["0.txt"; "8.txt"]);
      ("corpus/e/menuTabs/0.txt", File xml_0_abc);
      ("corpus/e/menuTabs/8.txt", File xml_8_description);
      ("corpus/f", Directory ["menuTabs"]);
      ("corpus/f/menuTabs", Directory ["0.txt"; "8.txt"]);
      ("corpus/f/menuTabs/0.txt", File xml_0_no_projection);
      ("corpus/f/menuTabs/8.txt", File xml_8_ok);
      ("corpus/g", Directory ["menuTabs"]);
      ("corpus/g/menuTabs", Directory ["0.txt"; "8.txt"]);
      ("corpus/g/menuTabs/0.txt", File xml_0_no_x);
      ("corpus/g/menuTabs/8.txt", File xml_8_ok) ].

(** A tree in which the name [0.txt] is taken by a directory. *)
Definition nested : filesystem :=
  paths
    [ ("corpus", Directory ["a"; "h"]);
      ("corpus/a", Directory ["menuTabs"]);
      ("corpus/a/menuTabs", Directory ["0.txt"; "8.txt"]);
      ("corpus/a/menuTabs/0.txt", File xml_0_ok);
      ("corpus/a/menuTabs/8.txt", File xml_8_ok);
      ("corpus/h", Directory ["menuTabs"]);
      ("corpus/h/menuTabs", Directory ["0.txt"; "8.txt"]);
      ("corpus/h/menuTabs/0.txt", Directory []);
      ("corpus/h/menuTabs/8.txt", File xml_8_ok) ].

Definition run_main (fs : filesystem) : M unit :=
  main_from fromstring py_float transform fs "corpus".

(** The record of [corpus/a]. *)
Definition record_a : dict :=
  list_to_map
    [ ("projection_x", VStr "315904"); ("projection_y", VStr "234671");
      ("latitude", VFloat 53.375%float); ("longitude", VFloat (-6.25)%float);
      ("name", VStr "Foo"); ("translation", VStr "Bar");
      ("description", VStr "Baz") ].

(** What [parse_8_txt] makes of [xml_8_description]. *)
Definition metadata_e : dict :=
  list_to_map
    [ ("name", VStr "Foo"); ("translation", VStr "Bar");
      ("description", VStr "") ].
End Sample.

(** ** More sample trees *)

Module Outlying.
(** Both descriptors of [corpus/k] are malformed. *)
Definition broken : filesystem :=
  Sample.paths
    [ ("corpus", Directory ["k"]);
      ("corpus/k", Directory ["menuTabs"]);
      ("corpus/k/menuTabs", Directory ["0.txt"; "8.txt"]);
      ("corpus/k/menuTabs/0.txt", File Sample.xml_malformed);
      ("corpus/k/menuTabs/8.txt", File Sample.xml_malformed) ].

(** [corpus/m] lacks [8.txt] and is skipped; [corpus/h], listed after
    it, has a directory named [0.txt]. *)
Definition late : filesystem :=
  Sample.paths
    [ ("corpus", Directory ["m"; "h"]);
      ("corpus/m", Directory ["menuTabs"]);
      ("corpus/m/menuTabs", Directory ["0.txt"]);
      ("corpus/m/menuTabs/0.txt", File Sample.xml_0_ok);
      ("corpus/h", Directory ["menuTabs"]);
      ("corpus/h/menuTabs", Directory ["0.txt"; "8.txt"]);
      ("corpus/h/menuTabs/0.txt", Directory []);
      ("corpus/h/menuTabs/8.txt", File Sample.xml_8_ok) ].

(** The malformed [0.txt] of [corpus/c] lies beside a directory named
    [8.txt]; [corpus/a], listed after it, is complete. *)
Definition beside : filesystem :=
  Sample.paths
    [ ("corpus", Directory ["c"; "a"]);
      ("corpus/c", Directory ["menuTabs"]);
      ("corpus/c/menuTabs", Directory ["0.txt"; "8.txt"]);
      ("corpus/c/menuTabs/0.txt", File Sample.xml_malformed);
      ("corpus/c/menuTabs/8.txt", Directory []);
      ("corpus/a", Directory ["menuTabs"]);
      ("corpus/a/menuTabs", Directory ["0.txt"; "8.txt"]);
      ("corpus/a/menuTabs/0.txt", File Sample.xml_0_ok);
      ("corpus/a/menuTabs/8.txt", File Sample.xml_8_ok) ].

(** [corpus/a] is complete; the [8.txt] of [corpus/p] is a regular file
    that the process may not read. *)
Definition locked : filesystem :=
  Sample.paths
    [ ("corpus", Directory ["a"; "p"]);
      ("corpus/a", Directory ["menuTabs"]);
      ("corpus/a/menuTabs", Directory ["0.txt"; "8.txt"]);
      ("corpus/a/menuTabs/0.txt", File Sample.xml_0_ok);
      ("corpus/a/menuTabs/8.txt", File Sample.xml_8_ok);
      ("corpus/p", Directory ["menuTabs"]);
      ("corpus/p/menuTabs", Directory ["0.txt"; "8.txt"]);
      ("corpus/p/menuTabs/0.txt", File Sample.xml_0_ok);
      ("corpus/p/menuTabs/8.txt", Unreadable PermissionError) ].


(** The name [output.csv] is taken by a directory. *)
Definition occupied : filesystem :=
  Sample.paths [ ("output.csv", Directory []) ].


(** A transform that raises on every point. *)
Definition failing_transform (easting northing : PrimFloat.float)
    : transformed :=
  TransformError.

(** The spatial record of [corpus/a] in [Sample.corpus]. *)
Definition spatial_a : dict :=
  list_to_map
    [ ("projection_x", VStr "315904"); ("projection_y", VStr "234671");
      ("latitude", VFloat 53.375%float); ("longitude", VFloat (-6.25)%float) ].
End Outlying.

(** ** Vocabulary of the statements *)

(** The [htmlText] of the first top-level [name] child of [root], empty
    when there is no such child or it lacks the attribute. *)
Definition html_text (root : Element) (name : string) : string :=
  match find root name with
  | Some elem => get elem "htmlText" ""
  | None => ""
  end.

(** A descriptor path that holds a regular file whose content
    [fromstring] rejects. *)
Definition malformed (fromstring : string -> option Element)
    (fs : filesystem) (p : string) : Prop :=
  exists content, fs !! p = Some (File content) /\ fromstring content = None.

(** What opening and reading [p] raises, if anything. *)
Definition open_error (fs : filesystem) (p : string) : option exn :=
  match fs !! p with
  | Some (File _) => None
  | Some (Unreadable e) => Some e
  | Some (Directory _) => Some IsADirectoryError
  | None => Some FileNotFoundError
  end.

(** [p] is absent, or a regular file that opens and reads. *)
Definition opens_or_absent (fs : filesystem) (p : string) : bool :=
  match fs !! p with
  | Some (File _) | None => true
  | Some (Unreadable _) | Some (Directory _) => false
  end.




(** An effect that is only a console line. *)
Definition is_print (ev : event) : bool :=
  match ev with
  | Print _ => true
  | CsvOpen _ | CsvRow _ _ => false
  end.

(** What the builder raises on [dirpath], if anything: both descriptor
    names exist, and [0.txt] cannot be read, or it can and [8.txt]
    cannot. *)
Definition descriptor_error (fs : filesystem) (dirpath : string)
    : option exn :=
  let file_0_txt := os_path_join dirpath "0.txt" in
  let file_8_txt := os_path_join dirpath "8.txt" in
  if os_path_exists fs file_0_txt && os_path_exists fs file_8_txt then
    match open_error fs file_0_txt with
    | Some e => Some e
    | None => open_error fs file_8_txt
    end
  else None.

(** What the turn of the loop for [dir_name] raises, if anything. *)
Definition entry_error (fs : filesystem) (root_dir dir_name : string)
    : option exn :=
  let dir_path := os_path_join root_dir dir_name in
  let menu_tab_path := os_path_join dir_path "menuTabs" in
  if os_path_isdir fs dir_path && os_path_isdir fs menu_tab_path
  then descriptor_error fs menu_tab_path
  else None.

(** The entry [dir_name] of [root_dir] is a directory with a [menuTabs]
    directory in which both descriptor names exist and one that the
    builder opens cannot be read. *)
Definition blocked (fs : filesystem) (root_dir dir_name : string) : bool :=
  match entry_error fs root_dir dir_name with
  | Some _ => true
  | None => false
  end.

(** What the loop over [dir_names] raises, if anything: the error of
    the first blocked entry. *)
Fixpoint walk_error (fs : filesystem) (root_dir : string)
    (dir_names : list string) : option exn :=
  match dir_names with
  | [] => None
  | dir_name :: rest =>
      match entry_error fs root_dir dir_name with
      | Some e => Some e
      | None => walk_error fs root_dir rest
      end
  end.

(** The record an entry of [root_dir] contributes, if any: the entry is
    a directory, holds a [menuTabs] directory, and the builder returns a
    record for it. *)
Definition accepted (fromstring : string -> option Element)
    (py_float : string -> option PrimFloat.float)
    (transform : PrimFloat.float -> PrimFloat.float -> transformed)
    (fs : filesystem) (root_dir dir_name : string) : option dict :=
  let dir_path := os_path_join root_dir dir_name in
  let menu_tab_path := os_path_join dir_path "menuTabs" in
  if os_path_isdir fs dir_path && os_path_isdir fs menu_tab_path then
    match (process_directory fromstring py_float transform fs menu_tab_path).1 with
    | Ret (Some record) => Some record
    | _ => None
    end
  else None.

(** The element names of [elements] that [root] has no child for. *)
Definition missing_elements (root : Element) : list string :=
  List.filter
    (fun elem_name =>
       match find root elem_name with Some _ => false | None => true end)
    (map (fun entry => entry.1.1) elements).

(** * Properties *)

Arguments os_path_join : simpl never.

(** ** The monad *)

Lemma bind_Ret {A B} (a : A) (l : list event) (k : A -> M B) :
  bind (Ret a, l) k = ((k a).1, l ++ (k a).2).
Proof. unfold bind. by destruct (k a). Qed.

Section Properties.
Context (fromstring : string -> option Element).
Context (py_float : string -> option PrimFloat.float).
Context (transform : PrimFloat.float -> PrimFloat.float -> transformed).
Context (fs : filesystem).

Local Abbreviation parse_0_txt := (parse_0_txt fromstring py_float transform fs).
Local Abbreviation parse_8_txt := (parse_8_txt fromstring fs).
Local Abbreviation process_directory :=
  (process_directory fromstring py_float transform fs).

(** ** The spatial descriptor *)

(** With [projection] present and a coordinate that [float] refuses,
    the parser returns exactly this record and prints one line. *)
Lemma parse_0_txt_invalid file_path content root projection_elem :
  fs !! file_path = Some (File content) ->
  fromstring content = Some root ->
  find root "projection" = Some projection_elem ->
  py_float (get projection_elem "x" "") = None \/
  py_float (get projection_elem "y" "") = None ->
  parse_0_txt file_path =
    (Ret (Some (<["longitude" := VStr ""]>
                 (<["latitude" := VStr ""]>
                   (<["projection_y" := VStr (get projection_elem "y" "")]>
                     (<["projection_x" := VStr (get projection_elem "x" "")]>
                       ∅))))),
     [Print (MsgInvalidCoords file_path)]).
Proof.
  intros Hfile Hxml Hfind Hnum.
  unfold parse_0_txt, open_read. rewrite Hfile.
  unfold ret at 1. rewrite bind_Ret, Hxml, Hfind.
  destruct (py_float (get projection_elem "x" "")) as [easting|] eqn:Hx;
    [destruct (py_float (get projection_elem "y" "")) as [northing|] eqn:Hy;
     [by destruct Hnum |] |];
    reflexivity.
Qed.

(** C4: when [projection] is present and [x] or [y] is not accepted by
    [float], the record has empty [latitude] and [longitude] and keeps
    the raw attribute strings in [projection_x] and [projection_y]. *)
Theorem parse_0_txt_non_numeric file_path content root projection_elem :
  fs !! file_path = Some (File content) ->
  fromstring content = Some root ->
  find root "projection" = Some projection_elem ->
  py_float (get projection_elem "x" "") = None \/
  py_float (get projection_elem "y" "") = None ->
  exists r l,
    parse_0_txt file_path = (Ret (Some r), l) /\
    r !! "latitude" = Some (VStr "") /\
    r !! "longitude" = Some (VStr "") /\
    r !! "projection_x" = Some (VStr (get projection_elem "x" "")) /\
    r !! "projection_y" = Some (VStr (get projection_elem "y" "")).
Proof.
  intros Hfile Hxml Hfind Hnum.
  eexists _, _. split; [by eapply parse_0_txt_invalid |].
  by simplify_map_eq.
Qed.

(** C10: when [projection] is present and lacks [x] or [y], the missing
    attribute reads as the empty string, which [float] refuses; the
    record is still returned, with that projection field, [latitude] and
    [longitude] all empty. *)
Theorem parse_0_txt_missing_attribute file_path content root projection_elem :
  py_float "" = None ->
  fs !! file_path = Some (File content) ->
  fromstring content = Some root ->
  find root "projection" = Some projection_elem ->
  attrib projection_elem !! "x" = None \/
  attrib projection_elem !! "y" = None ->
  exists r l,
    parse_0_txt file_path = (Ret (Some r), l) /\
    (attrib projection_elem !! "x" = None ->
     get projection_elem "x" "" = "" /\ r !! "projection_x" = Some (VStr "")) /\
    (attrib projection_elem !! "y" = None ->
     get projection_elem "y" "" = "" /\ r !! "projection_y" = Some (VStr "")) /\
    r !! "latitude" = Some (VStr "") /\
    r !! "longitude" = Some (VStr "").
Proof.
  intros Hempty Hfile Hxml Hfind Hmissing.
  assert (Hget : forall key, attrib projection_elem !! key = None ->
                             get projection_elem key "" = "").
  { intros key Hkey. unfold get. by rewrite Hkey. }
  assert (Hnum : py_float (get projection_elem "x" "") = None \/
                 py_float (get projection_elem "y" "") = None).
  { destruct Hmissing as [Hx | Hy]; [left | right]; by rewrite Hget. }
  eexists _, _. split; [by eapply parse_0_txt_invalid |].
  split; [| split; [| split]].
  - intros Hx. rewrite (Hget _ Hx). by simplify_map_eq.
  - intros Hy. rewrite (Hget _ Hy). by simplify_map_eq.
  - by simplify_map_eq.
  - by simplify_map_eq.
Qed.

Lemma parse_0_txt_no_projection file_path content root :
  fs !! file_path = Some (File content) ->
  fromstring content = Some root ->
  find root "projection" = None ->
  parse_0_txt file_path =
    (Ret (Some (<["longitude" := VStr ""]>
                 (<["latitude" := VStr ""]>
                   (<["projection_y" := VStr ""]>
                     (<["projection_x" := VStr ""]> ∅))))),
     [Print (MsgNoProjection file_path)]).
Proof.
  intros Hfile Hxml Hfind.
  unfold parse_0_txt, open_read. rewrite Hfile.
  unfold ret at 1. by rewrite bind_Ret, Hxml, Hfind.
Qed.

Lemma parse_0_txt_malformed file_path content :
  fs !! file_path = Some (File content) ->
  fromstring content = None ->
  parse_0_txt file_path = (Ret None, [Print (MsgXmlError file_path)]).
Proof.
  intros Hfile Hxml.
  unfold parse_0_txt, open_read. rewrite Hfile.
  unfold ret at 1. by rewrite bind_Ret, Hxml.
Qed.

(** A regular file is always parsed to completion: the parser returns a
    record or [None], it does not raise. *)
Lemma parse_0_txt_total file_path content :
  fs !! file_path = Some (File content) ->
  exists o l, parse_0_txt file_path = (Ret o, l).
Proof.
  intros Hfile.
  unfold parse_0_txt, open_read. rewrite Hfile.
  unfold ret at 1. rewrite bind_Ret.
  repeat case_match; by eexists _, _.
Qed.

Lemma parse_0_txt_dom file_path r l :
  parse_0_txt file_path = (Ret (Some r), l) ->
  dom r = {[ "projection_x"; "projection_y"; "latitude"; "longitude" ]}.
Proof.
  unfold parse_0_txt, open_read.
  destruct (fs !! file_path) as [[content|e|entries]|]; [| done | done | done].
  unfold ret at 1. rewrite bind_Ret.
  repeat case_match; intros [= <- _]; rewrite !dom_insert_L; set_solver.
Qed.

(** ** The metadata descriptor *)

(** The record [parse_8_txt] builds from a parsed document. *)
Lemma parse_8_txt_wellformed file_path content root :
  fs !! file_path = Some (File content) ->
  fromstring content = Some root ->
  exists l,
    parse_8_txt file_path =
      (Ret (Some (<["description" := VStr (html_text root "explanation")]>
                   (<["translation" := VStr (html_text root "translation")]>
                     (<["name" := VStr (html_text root "name")]> ∅)))),
       l).
Proof.
  intros Hfile Hxml.
  unfold parse_8_txt, open_read. rewrite Hfile.
  unfold ret at 1. rewrite bind_Ret, Hxml.
  unfold elements, html_text. cbn [for_each]. unfold parse_8_step.
  destruct (find root "name"), (find root "translation"),
    (find root "explanation"); by eexists.
Qed.

Lemma parse_8_txt_malformed file_path content :
  fs !! file_path = Some (File content) ->
  fromstring content = None ->
  parse_8_txt file_path = (Ret None, [Print (MsgXmlError file_path)]).
Proof.
  intros Hfile Hxml.
  unfold parse_8_txt, open_read. rewrite Hfile.
  unfold ret at 1. by rewrite bind_Ret, Hxml.
Qed.

Lemma parse_8_txt_total file_path content :
  fs !! file_path = Some (File content) ->
  exists o l, parse_8_txt file_path = (Ret o, l).
Proof.
  intros Hfile. destruct (fromstring content) as [root|] eqn:Hxml.
  - destruct (parse_8_txt_wellformed _ _ _ Hfile Hxml) as [l Hl]. eauto.
  - rewrite (parse_8_txt_malformed _ _ Hfile Hxml). eauto.
Qed.

Lemma parse_8_txt_dom file_path r l :
  parse_8_txt file_path = (Ret (Some r), l) ->
  dom r = {[ "name"; "translation"; "description" ]}.
Proof.
  destruct (fs !! file_path) as [[content|e|entries]|] eqn:Hfile.
  - destruct (fromstring content) as [root|] eqn:Hxml.
    + destruct (parse_8_txt_wellformed _ _ _ Hfile Hxml) as [l' ->].
      intros [= <- _]. rewrite !dom_insert_L. set_solver.
    + by rewrite (parse_8_txt_malformed _ _ Hfile Hxml).
  - unfold parse_8_txt, open_read. by rewrite Hfile.
  - unfold parse_8_txt, open_read. by rewrite Hfile.
  - unfold parse_8_txt, open_read. by rewrite Hfile.
Qed.

(** C1 (as the code has it): for a metadata descriptor that parses,
    [name] and [translation] come from the [htmlText] of the top-level
    elements of the same name, and [description] comes from the
    [htmlText] of the top-level element named [explanation]; each is the
    empty string when the element or the attribute is absent. *)
Theorem parse_8_txt_fields file_path content root :
  fs !! file_path = Some (File content) ->
  fromstring content = Some root ->
  exists r l,
    parse_8_txt file_path = (Ret (Some r), l) /\
    r !! "name" = Some (VStr (html_text root "name")) /\
    r !! "translation" = Some (VStr (html_text root "translation")) /\
    r !! "description" = Some (VStr (html_text root "explanation")).
Proof.
  intros Hfile Hxml.
  destruct (parse_8_txt_wellformed _ _ _ Hfile Hxml) as [l Hl].
  eexists _, l. split; [exact Hl |]. by simplify_map_eq.
Qed.

(** ** The record builder *)

Lemma process_directory_missing dirpath :
  os_path_exists fs (os_path_join dirpath "0.txt") = false \/
  os_path_exists fs (os_path_join dirpath "8.txt") = false ->
  process_directory dirpath = (Ret None, [Print (MsgSkipMissing dirpath)]).
Proof.
  intros Hmissing. unfold process_directory.
  by destruct Hmissing as [-> | ->]; rewrite ?orb_true_r.
Qed.

Lemma exists_of_file p content :
  fs !! p = Some (File content) -> os_path_exists fs p = true.
Proof. unfold os_path_exists. by intros ->. Qed.

(** Both parsers having returned, the builder merges two records and
    gives up as soon as one of them is [None]. *)
Lemma process_directory_parsed dirpath o0 l0 o8 l8 :
  os_path_exists fs (os_path_join dirpath "0.txt") = true ->
  os_path_exists fs (os_path_join dirpath "8.txt") = true ->
  parse_0_txt (os_path_join dirpath "0.txt") = (Ret o0, l0) ->
  parse_8_txt (os_path_join dirpath "8.txt") = (Ret o8, l8) ->
  process_directory dirpath =
    match o0, o8 with
    | Some record_0, Some record_8 =>
        (Ret (Some (merge record_0 record_8)), l0 ++ l8 ++ [])
    | _, _ => (Ret None, l0 ++ l8 ++ [Print (MsgSkipParse dirpath)])
    end.
Proof.
  intros H0 H8 Hp0 Hp8. unfold process_directory.
  rewrite H0, H8, Hp0. simpl negb. simpl orb. cbv iota.
  rewrite bind_Ret, Hp8, bind_Ret.
  by destruct o0, o8.
Qed.

Lemma process_directory_inv dirpath r l :
  process_directory dirpath = (Ret (Some r), l) ->
  exists record_0 record_8 l0 l8,
    parse_0_txt (os_path_join dirpath "0.txt") = (Ret (Some record_0), l0) /\
    parse_8_txt (os_path_join dirpath "8.txt") = (Ret (Some record_8), l8) /\
    r = merge record_0 record_8.
Proof.
  unfold process_directory.
  destruct (negb _ || negb _); [done |].
  destruct (parse_0_txt _) as [[o0|e0] l0]; [| done].
  rewrite bind_Ret.
  destruct (parse_8_txt _) as [[o8|e8] l8]; [| done].
  rewrite bind_Ret.
  destruct o0 as [record_0|], o8 as [record_8|]; try done.
  intros [= <- _]. by eexists _, _, _, _.
Qed.

Lemma open_error_None p :
  open_error fs p = None -> exists content, fs !! p = Some (File content).
Proof.
  unfold open_error. destruct (fs !! p) as [[content|e|entries]|]; by eauto.
Qed.

Lemma opens_or_absent_lookup p :
  opens_or_absent fs p = true ->
  fs !! p = None \/ exists content, fs !! p = Some (File content).
Proof.
  unfold opens_or_absent.
  destruct (fs !! p) as [[content|e|entries]|]; by eauto.
Qed.

Lemma parse_0_txt_open_error file_path e :
  open_error fs file_path = Some e ->
  parse_0_txt file_path = (Raise e, []).
Proof.
  unfold open_error, parse_0_txt, open_read.
  destruct (fs !! file_path) as [[content|e'|entries]|]; by intros [= <-].
Qed.

Lemma parse_8_txt_open_error file_path e :
  open_error fs file_path = Some e ->
  parse_8_txt file_path = (Raise e, []).
Proof.
  unfold open_error, parse_8_txt, open_read.
  destruct (fs !! file_path) as [[content|e'|entries]|]; by intros [= <-].
Qed.

(** The builder raises what the first unreadable descriptor raises, and
    returns, with a record or with [None], when there is none. *)
Lemma process_directory_outcome dirpath :
  match descriptor_error fs dirpath with
  | Some e => exists l, process_directory dirpath = (Raise e, l)
  | None => exists o l, process_directory dirpath = (Ret o, l)
  end.
Proof.
  unfold descriptor_error.
  destruct (os_path_exists fs (os_path_join dirpath "0.txt")) eqn:He0;
    cbn [andb].
  2:{ rewrite process_directory_missing by (by left). by eexists _, _. }
  destruct (os_path_exists fs (os_path_join dirpath "8.txt")) eqn:He8.
  2:{ rewrite process_directory_missing by (by right). by eexists _, _. }
  destruct (open_error fs (os_path_join dirpath "0.txt")) as [e0|] eqn:Ho0.
  { unfold process_directory. rewrite He0, He8. cbn [negb orb].
    rewrite (parse_0_txt_open_error _ _ Ho0). by eexists. }
  destruct (open_error_None _ Ho0) as [c0 Hf0].
  destruct (parse_0_txt_total _ _ Hf0) as (o0 & l0 & Hp0).
  destruct (open_error fs (os_path_join dirpath "8.txt")) as [e8|] eqn:Ho8.
  { unfold process_directory. rewrite He0, He8. cbn [negb orb].
    rewrite Hp0, bind_Ret, (parse_8_txt_open_error _ _ Ho8). by eexists. }
  destruct (open_error_None _ Ho8) as [c8 Hf8].
  destruct (parse_8_txt_total _ _ Hf8) as (o8 & l8 & Hp8).
  rewrite (process_directory_parsed _ _ _ _ _ He0 He8 Hp0 Hp8).
  destruct o0, o8; by eexists _, _.
Qed.

(** A malformed descriptor beside one that is absent or readable: the
    builder returns [None]. *)
Lemma process_directory_malformed dirpath :
  malformed fromstring fs (os_path_join dirpath "0.txt") /\
  opens_or_absent fs (os_path_join dirpath "8.txt") = true \/
  malformed fromstring fs (os_path_join dirpath "8.txt") /\
  opens_or_absent fs (os_path_join dirpath "0.txt") = true ->
  exists l, process_directory dirpath = (Ret None, l).
Proof.
  intros [[(c0 & Hf0 & Hx0) Hother] | [(c8 & Hf8 & Hx8) Hother]];
    apply opens_or_absent_lookup in Hother as [Hnone | [c Hf]].
  - rewrite process_directory_missing; [by eexists |].
    right. unfold os_path_exists. by rewrite Hnone.
  - destruct (parse_8_txt_total _ _ Hf) as (o8 & l8 & Hp8).
    rewrite (process_directory_parsed _ _ _ _ _
               (exists_of_file _ _ Hf0) (exists_of_file _ _ Hf)
               (parse_0_txt_malformed _ _ Hf0 Hx0) Hp8).
    by eexists.
  - rewrite process_directory_missing; [by eexists |].
    left. unfold os_path_exists. by rewrite Hnone.
  - destruct (parse_0_txt_total _ _ Hf) as (o0 & l0 & Hp0).
    rewrite (process_directory_parsed _ _ _ _ _
               (exists_of_file _ _ Hf) (exists_of_file _ _ Hf8)
               Hp0 (parse_8_txt_malformed _ _ Hf8 Hx8)).
    destruct o0; by eexists.
Qed.

(** C5: when both descriptors parse and the spatial one has no top-level
    [projection], the builder still returns a record; its four spatial
    fields are empty strings and its metadata fields are those read from
    the second descriptor. *)
Theorem process_directory_no_projection dirpath content_0 content_8 root_0 root_8 :
  fs !! os_path_join dirpath "0.txt" = Some (File content_0) ->
  fs !! os_path_join dirpath "8.txt" = Some (File content_8) ->
  fromstring content_0 = Some root_0 ->
  fromstring content_8 = Some root_8 ->
  find root_0 "projection" = None ->
  exists r l,
    process_directory dirpath = (Ret (Some r), l) /\
    r !! "projection_x" = Some (VStr "") /\
    r !! "projection_y" = Some (VStr "") /\
    r !! "latitude" = Some (VStr "") /\
    r !! "longitude" = Some (VStr "") /\
    r !! "name" = Some (VStr (html_text root_8 "name")) /\
    r !! "translation" = Some (VStr (html_text root_8 "translation")) /\
    r !! "description" = Some (VStr (html_text root_8 "explanation")).
Proof.
  intros Hf0 Hf8 Hx0 Hx8 Hfind.
  destruct (parse_8_txt_wellformed _ _ _ Hf8 Hx8) as [l8 Hp8].
  eexists _, _. split.
  - by rewrite (process_directory_parsed _ _ _ _ _
                  (exists_of_file _ _ Hf0) (exists_of_file _ _ Hf8)
                  (parse_0_txt_no_projection _ _ _ Hf0 Hx0 Hfind) Hp8).
  - unfold merge. repeat split;
      (rewrite lookup_union; by simplify_map_eq).
Qed.

Lemma process_directory_dom dirpath r l :
  process_directory dirpath = (Ret (Some r), l) ->
  dom r = list_to_set csv_columns.
Proof.
  intros Hrun.
  destruct (process_directory_inv _ _ _ Hrun)
    as (record_0 & record_8 & l0 & l8 & Hp0 & Hp8 & ->).
  unfold merge. rewrite dom_union_L.
  rewrite (parse_0_txt_dom _ _ _ Hp0), (parse_8_txt_dom _ _ _ Hp8).
  unfold csv_columns. simpl. set_solver.
Qed.

(** C9: whatever the builder returns, its truth value is that of the
    test against [None]: a returned record has exactly the seven column
    names as keys, so it is not empty. *)
Theorem process_directory_truthy dirpath o l :
  process_directory dirpath = (Ret o, l) ->
  truthy o = is_not_None o /\
  forall r, o = Some r ->
    dom r = list_to_set csv_columns /\ size r = 7 /\ r <> ∅.
Proof.
  intros Hrun.
  assert (Hkeys : forall r, o = Some r ->
            dom r = list_to_set csv_columns /\ size r = 7 /\ r <> ∅).
  { intros r ->. pose proof (process_directory_dom _ _ _ Hrun) as Hdom.
    assert (Hsize : size r = 7).
    { rewrite <- size_dom, Hdom. reflexivity. }
    repeat split; [done | done |].
    intros ->. by rewrite map_size_empty in Hsize. }
  split; [| done].
  destruct o as [r|]; [| done].
  destruct (Hkeys r eq_refl) as (_ & Hsize & _).
  unfold truthy, dict_bool. by rewrite Hsize.
Qed.

(** ** The walker *)

(** A directory for which the builder returns [None] adds nothing to
    [data_list], and the loop goes on. *)
Lemma main_step_None root_dir data_list dir_name l :
  process_directory
    (os_path_join (os_path_join root_dir dir_name) "menuTabs") = (Ret None, l) ->
  exists l',
    main_step fromstring py_float transform fs root_dir data_list dir_name
    = (Ret data_list, l').
Proof.
  intros Hrun. unfold main_step.
  destruct (os_path_isdir fs (os_path_join root_dir dir_name));
    [| by eexists].
  destruct (os_path_isdir fs _); [| by eexists].
  rewrite Hrun, bind_Ret. by eexists.
Qed.

Lemma walk_cons root_dir dir_name rest data_list data_list' l :
  main_step fromstring py_float transform fs root_dir data_list dir_name
  = (Ret data_list', l) ->
  walk fromstring py_float transform fs root_dir (dir_name :: rest) data_list
  = ((walk fromstring py_float transform fs root_dir rest data_list').1,
     l ++ (walk fromstring py_float transform fs root_dir rest data_list').2).
Proof.
  intros Hstep. unfold walk. cbn [for_each]. by rewrite Hstep, bind_Ret.
Qed.

(** C6 (as the code has it): when [0.txt] or [8.txt] does not exist in
    the directory, the builder returns [None] and the directory adds
    nothing to [data_list]; the test is the one of [os.path.exists]. *)
Theorem process_directory_missing_file root_dir dir_name data_list :
  let dirpath := os_path_join (os_path_join root_dir dir_name) "menuTabs" in
  os_path_exists fs (os_path_join dirpath "0.txt") = false \/
  os_path_exists fs (os_path_join dirpath "8.txt") = false ->
  process_directory dirpath = (Ret None, [Print (MsgSkipMissing dirpath)]) /\
  exists l,
    main_step fromstring py_float transform fs root_dir data_list dir_name
    = (Ret data_list, l).
Proof.
  intros dirpath Hmissing.
  pose proof (process_directory_missing _ Hmissing) as Hrun.
  split; [done |]. by eapply main_step_None.
Qed.

(** C3 (as the code has it): when the content of [0.txt] or of [8.txt]
    is not well-formed and the other descriptor is absent or can be
    opened and read, the parser of the malformed file returns [None], the
    builder returns [None] for the directory, nothing is added to
    [data_list], and the walk goes on with the remaining directories. *)
Theorem malformed_directory_skipped root_dir dir_name rest data_list :
  let dirpath := os_path_join (os_path_join root_dir dir_name) "menuTabs" in
  let file_0_txt := os_path_join dirpath "0.txt" in
  let file_8_txt := os_path_join dirpath "8.txt" in
  malformed fromstring fs file_0_txt /\ opens_or_absent fs file_8_txt = true \/
  malformed fromstring fs file_8_txt /\ opens_or_absent fs file_0_txt = true ->
  (malformed fromstring fs file_0_txt ->
   exists l, parse_0_txt file_0_txt = (Ret None, l)) /\
  (malformed fromstring fs file_8_txt ->
   exists l, parse_8_txt file_8_txt = (Ret None, l)) /\
  (exists l, process_directory dirpath = (Ret None, l)) /\
  exists l,
    walk fromstring py_float transform fs root_dir (dir_name :: rest) data_list
    = ((walk fromstring py_float transform fs root_dir rest data_list).1,
       l ++ (walk fromstring py_float transform fs root_dir rest data_list).2).
Proof.
  intros dirpath file_0_txt file_8_txt Hbad.
  split.
  { intros (c & Hf & Hx). rewrite (parse_0_txt_malformed _ _ Hf Hx). eauto. }
  split.
  { intros (c & Hf & Hx). rewrite (parse_8_txt_malformed _ _ Hf Hx). eauto. }
  destruct (process_directory_malformed dirpath Hbad) as [l Hrun].
  split; [by eexists |].
  destruct (main_step_None root_dir data_list dir_name l Hrun) as [l' Hstep].
  exists l'. by apply walk_cons.
Qed.

(** ** The exporter *)

Lemma foldl_insert_lookup (f : string -> value) (cols : list string)
    (d : dict) (k : string) :
  foldl (fun d kv => <[kv.1 := kv.2]> d) d (map (fun key => (key, f key)) cols)
    !! k
  = if decide (k ∈ cols) then Some (f k) else d !! k.
Proof.
  revert d. induction cols as [|c cols IH]; intros d.
  - destruct (decide (k ∈ [])) as [Hin%elem_of_nil | _]; done.
  - cbn [map foldl]. rewrite IH. cbn [fst snd]. destruct (decide (k ∈ cols)) as [Hin | Hnin].
    + rewrite decide_True; [done | by right].
    + destruct (decide (c = k)) as [-> | Hne].
      * rewrite decide_True; [| by left]. by rewrite lookup_insert_eq.
      * rewrite decide_False; [by rewrite lookup_insert_ne |].
        intros [-> | Hin]%elem_of_cons; done.
Qed.

Lemma py_dict_lookup (f : string -> value) (cols : list string) (k : string) :
  py_dict (map (fun key => (key, f key)) cols) !! k
  = if decide (k ∈ cols) then Some (f k) else None.
Proof. unfold py_dict. by rewrite foldl_insert_lookup, lookup_empty. Qed.

Lemma py_dict_dom (f : string -> value) (cols : list string) :
  dom (py_dict (map (fun key => (key, f key)) cols)) = list_to_set cols.
Proof.
  apply set_eq. intros k.
  rewrite elem_of_dom, py_dict_lookup, elem_of_list_to_set.
  case_decide; split; intros H'; try done.
Qed.

(** A dictionary built over the field names has no extra key, so
    [DictWriter] writes it: one cell per field name, in order. *)
Lemma writerow_py_dict csv_file (f : string -> value) (cols : list string) :
  writerow csv_file cols (py_dict (map (fun key => (key, f key)) cols))
  = (Ret tt, [CsvRow csv_file (map f cols)]).
Proof.
  unfold writerow, dict_to_list.
  rewrite bool_decide_eq_true_2 by (by rewrite py_dict_dom).
  unfold ret. rewrite bind_Ret. simpl. do 3 f_equal.
  apply map_ext_in. intros k Hin%list_elem_of_In.
  by rewrite py_dict_lookup, decide_True.
Qed.

Lemma write_rows csv_file (cols : list string) (data_list : list dict) :
  for_each
    (fun (_ : unit) data =>
       writerow csv_file cols
         (py_dict (map (fun key => (key, dict_get data key)) cols)))
    data_list tt
  = (Ret tt,
     map (fun data => CsvRow csv_file (map (dict_get data) cols)) data_list).
Proof.
  induction data_list as [|data data_list IH]; [done |].
  cbn [for_each]. by rewrite writerow_py_dict, bind_Ret, IH.
Qed.

Lemma write_csv_opened data_list csv_file cols :
  os_path_isdir fs csv_file = false ->
  csv_file <> "" ->
  write_csv fs data_list csv_file cols
  = (Ret tt,
     [CsvOpen csv_file; CsvRow csv_file (map VStr cols)]
     ++ map (fun data => CsvRow csv_file (map (dict_get data) cols)) data_list
     ++ [Print (MsgWritten csv_file)]).
Proof.
  intros Hdir Hname. unfold write_csv, open_write.
  rewrite Hdir. apply String.eqb_neq in Hname. rewrite Hname.
  unfold emit at 1. rewrite bind_Ret.
  unfold writeheader. rewrite writerow_py_dict, bind_Ret.
  rewrite write_rows, bind_Ret. reflexivity.
Qed.

Lemma write_csv_refused data_list csv_file cols :
  os_path_isdir fs csv_file = true \/ csv_file = "" ->
  write_csv fs data_list csv_file cols
  = (Ret tt, [Print (MsgIOError csv_file)]).
Proof.
  intros Hbad. unfold write_csv, open_write.
  destruct (os_path_isdir fs csv_file) eqn:Hdir; [done |].
  destruct Hbad as [? | ->]; done.
Qed.

(** C7: once the output file is open, the exporter hands the csv writer
    the header row of the seven column names in order, then one row per
    record in order, each cell being the record's value under the column
    name or the empty string when the record lacks that key. *)
Theorem write_csv_rows (data_list : list dict) csv_file :
  os_path_isdir fs csv_file = false ->
  csv_file <> "" ->
  write_csv fs data_list csv_file csv_columns
  = (Ret tt,
     [ CsvOpen csv_file;
       CsvRow csv_file
         [ VStr "projection_x"; VStr "projection_y"; VStr "latitude";
           VStr "longitude"; VStr "name"; VStr "translation";
           VStr "description" ] ]
     ++ map (fun data =>
               CsvRow csv_file
                 (map (fun key => default (VStr "") (data !! key))
                    [ "projection_x"; "projection_y"; "latitude";
                      "longitude"; "name"; "translation"; "description" ]))
          data_list
     ++ [Print (MsgWritten csv_file)]).
Proof.
  intros Hdir Hname. by rewrite write_csv_opened.
Qed.

(** ** The whole run *)


(** As committed, [root_dir] is the empty string, which [os.listdir]
    cannot list: the script has to be edited before it does anything. *)
Remark main_needs_root_dir :
  fs !! "" = None ->
  main fromstring py_float transform fs = (Raise FileNotFoundError, []).
Proof. intros Hroot. unfold main, main_from, os_listdir. by rewrite Hroot. Qed.

(** * Further properties of the script *)

(** ** The spatial descriptor, continued *)

(** X1: when both coordinates are accepted by [float] and the transform
    returns a pair, the first component is stored as [longitude] and the
    second as [latitude], both as floats; the raw strings stay in
    [projection_x] and [projection_y] and nothing is printed. *)
Theorem parse_0_txt_transformed file_path content root projection_elem
    easting northing longitude latitude :
  fs !! file_path = Some (File content) ->
  fromstring content = Some root ->
  find root "projection" = Some projection_elem ->
  py_float (get projection_elem "x" "") = Some easting ->
  py_float (get projection_elem "y" "") = Some northing ->
  transform easting northing = Transformed longitude latitude ->
  exists r,
    parse_0_txt file_path = (Ret (Some r), []) /\
    r !! "longitude" = Some (VFloat longitude) /\
    r !! "latitude" = Some (VFloat latitude) /\
    r !! "projection_x" = Some (VStr (get projection_elem "x" "")) /\
    r !! "projection_y" = Some (VStr (get projection_elem "y" "")).
Proof.
  intros Hfile Hxml Hfind Hx Hy Ht.
  unfold parse_0_txt, open_read. rewrite Hfile.
  unfold ret at 1. rewrite bind_Ret, Hxml, Hfind, Hx, Hy, Ht.
  eexists. split; [reflexivity |]. by simplify_map_eq.
Qed.

(** X2: when the transform raises, whatever the exception, the record is
    still returned: [latitude] and [longitude] are empty strings, the raw
    coordinate strings are kept, and one line is printed. *)
Theorem parse_0_txt_transform_failure file_path content root projection_elem
    easting northing :
  fs !! file_path = Some (File content) ->
  fromstring content = Some root ->
  find root "projection" = Some projection_elem ->
  py_float (get projection_elem "x" "") = Some easting ->
  py_float (get projection_elem "y" "") = Some northing ->
  (forall longitude latitude,
     transform easting northing <> Transformed longitude latitude) ->
  exists r m,
    parse_0_txt file_path = (Ret (Some r), [Print m]) /\
    r !! "latitude" = Some (VStr "") /\
    r !! "longitude" = Some (VStr "") /\
    r !! "projection_x" = Some (VStr (get projection_elem "x" "")) /\
    r !! "projection_y" = Some (VStr (get projection_elem "y" "")).
Proof.
  intros Hfile Hxml Hfind Hx Hy Ht.
  unfold parse_0_txt, open_read. rewrite Hfile.
  unfold ret at 1. rewrite bind_Ret, Hxml, Hfind, Hx, Hy.
  destruct (transform easting northing) as [lon lat| |] eqn:Htr.
  - by destruct (Ht lon lat).
  - eexists _, _. split; [reflexivity |]. by simplify_map_eq.
  - eexists _, _. split; [reflexivity |]. by simplify_map_eq.
Qed.

(** X3: in every record the spatial parser returns, [projection_x] and
    [projection_y] are strings, and the two coordinates come as a pair:
    either both are empty strings, or both are floats, and then they are
    the transform of the two projection strings read as floats. *)
Theorem parse_0_txt_coordinates_paired file_path r l :
  parse_0_txt file_path = (Ret (Some r), l) ->
  exists proj_x proj_y,
    r !! "projection_x" = Some (VStr proj_x) /\
    r !! "projection_y" = Some (VStr proj_y) /\
    ((r !! "latitude" = Some (VStr "") /\ r !! "longitude" = Some (VStr "")) \/
     exists easting northing longitude latitude,
       py_float proj_x = Some easting /\
       py_float proj_y = Some northing /\
       transform easting northing = Transformed longitude latitude /\
       r !! "latitude" = Some (VFloat latitude) /\
       r !! "longitude" = Some (VFloat longitude)).
Proof.
  unfold parse_0_txt, open_read.
  destruct (fs !! file_path) as [[content|e|entries]|]; [| done | done | done].
  unfold ret at 1. rewrite bind_Ret.
  destruct (fromstring content) as [root|]; [| done].
  destruct (find root "projection") as [projection_elem|].
  - destruct (py_float (get projection_elem "x" "")) as [easting|] eqn:Hx.
    + destruct (py_float (get projection_elem "y" "")) as [northing|] eqn:Hy.
      * destruct (transform easting northing) as [lon lat| |] eqn:Ht;
          intros [= <- _]; eexists _, _;
          (split; [by simplify_map_eq |]); (split; [by simplify_map_eq |]).
        -- right. exists easting, northing, lon, lat.
           repeat split; try done; by simplify_map_eq.
        -- left. by simplify_map_eq.
        -- left. by simplify_map_eq.
      * intros [= <- _]. eexists _, _.
        split; [by simplify_map_eq |]. split; [by simplify_map_eq |].
        left. by simplify_map_eq.
    + intros [= <- _]. eexists _, _.
      split; [by simplify_map_eq |]. split; [by simplify_map_eq |].
      left. by simplify_map_eq.
  - intros [= <- _]. exists "", "".
    split; [by simplify_map_eq |]. split; [by simplify_map_eq |].
    left. by simplify_map_eq.
Qed.

(** ** The metadata descriptor, continued *)

(** X4: on a descriptor that parses, the metadata parser prints exactly
    one line per element of its table that the document lacks, in table
    order, and nothing else; a missing element never rejects the file. *)
Theorem parse_8_txt_diagnostics file_path content root :
  fs !! file_path = Some (File content) ->
  fromstring content = Some root ->
  exists r,
    parse_8_txt file_path
    = (Ret (Some r),
       map (fun elem_name => Print (MsgNoElement elem_name file_path))
         (missing_elements root)).
Proof.
  intros Hfile Hxml.
  unfold parse_8_txt, open_read. rewrite Hfile.
  unfold ret at 1. rewrite bind_Ret, Hxml.
  unfold missing_elements, elements. cbn [for_each map List.filter fst].
  unfold parse_8_step.
  destruct (find root "name"), (find root "translation"),
    (find root "explanation"); by eexists.
Qed.

(** ** The record builder, continued *)

(** X5: the builder raises exactly when both descriptor names exist and
    one that it opens cannot be read ([0.txt], or [8.txt] once [0.txt]
    has been read), and it raises what that [open] raises:
    [IsADirectoryError] for a directory, the operating system's error
    for an unreadable file. In every other case it returns. *)
Theorem process_directory_raises dirpath e :
  (exists l, process_directory dirpath = (Raise e, l)) <->
  descriptor_error fs dirpath = Some e.
Proof.
  pose proof (process_directory_outcome dirpath) as Hout.
  destruct (descriptor_error fs dirpath) as [e'|].
  - destruct Hout as [l Hl]. split.
    + intros [l' Hl']. congruence.
    + intros [= <-]. by eexists.
  - destruct Hout as (o & l & Hl). split; [| done].
    intros [l' Hl']. congruence.
Qed.

(** X6: a malformed [0.txt] does not stop the builder from opening and
    parsing [8.txt]: when both are malformed, both parse errors are
    printed, in that order, before the directory is skipped. *)
Theorem process_directory_both_malformed dirpath :
  malformed fromstring fs (os_path_join dirpath "0.txt") ->
  malformed fromstring fs (os_path_join dirpath "8.txt") ->
  process_directory dirpath
  = (Ret None,
     [ Print (MsgXmlError (os_path_join dirpath "0.txt"));
       Print (MsgXmlError (os_path_join dirpath "8.txt"));
       Print (MsgSkipParse dirpath) ]).
Proof.
  intros (c0 & Hf0 & Hx0) (c8 & Hf8 & Hx8).
  by rewrite (process_directory_parsed _ _ _ _ _
                (exists_of_file _ _ Hf0) (exists_of_file _ _ Hf8)
                (parse_0_txt_malformed _ _ Hf0 Hx0)
                (parse_8_txt_malformed _ _ Hf8 Hx8)).
Qed.

Lemma parsed_disjoint file_0_txt file_8_txt record_0 record_8 l0 l8 :
  parse_0_txt file_0_txt = (Ret (Some record_0), l0) ->
  parse_8_txt file_8_txt = (Ret (Some record_8), l8) ->
  record_8 ##ₘ record_0.
Proof.
  intros Hp0 Hp8. apply map_disjoint_dom.
  rewrite (parse_0_txt_dom _ _ _ Hp0), (parse_8_txt_dom _ _ _ Hp8).
  compute_done.
Qed.

Lemma parsed_lookup_merge file_0_txt file_8_txt record_0 record_8 l0 l8 key v :
  parse_0_txt file_0_txt = (Ret (Some record_0), l0) ->
  parse_8_txt file_8_txt = (Ret (Some record_8), l8) ->
  merge record_0 record_8 !! key = Some v <->
  record_0 !! key = Some v \/ record_8 !! key = Some v.
Proof.
  intros Hp0 Hp8. unfold merge.
  rewrite lookup_union_Some by (by eapply parsed_disjoint). tauto.
Qed.

(** X7: the merge loses nothing: the two parsers write disjoint key
    sets, so every field of the spatial record and every field of the
    metadata record is found unchanged in the record the builder
    returns, and the record has no other field. *)
Theorem process_directory_keeps_fields dirpath r l :
  process_directory dirpath = (Ret (Some r), l) ->
  exists record_0 record_8 l0 l8,
    parse_0_txt (os_path_join dirpath "0.txt") = (Ret (Some record_0), l0) /\
    parse_8_txt (os_path_join dirpath "8.txt") = (Ret (Some record_8), l8) /\
    l = l0 ++ l8 /\
    forall key v,
      r !! key = Some v <->
      record_0 !! key = Some v \/ record_8 !! key = Some v.
Proof.
  intros Hrun.
  destruct (process_directory_inv _ _ _ Hrun)
    as (record_0 & record_8 & l0 & l8 & Hp0 & Hp8 & ->).
  exists record_0, record_8, l0, l8.
  split; [done |]. split; [done |]. split.
  - assert (He0 : os_path_exists fs (os_path_join dirpath "0.txt") = true).
    { unfold parse_0_txt, open_read, os_path_exists in *.
      by destruct (fs !! os_path_join dirpath "0.txt"). }
    assert (He8 : os_path_exists fs (os_path_join dirpath "8.txt") = true).
    { unfold parse_8_txt, open_read, os_path_exists in *.
      by destruct (fs !! os_path_join dirpath "8.txt"). }
    rewrite (process_directory_parsed _ _ _ _ _ He0 He8 Hp0 Hp8) in Hrun.
    injection Hrun as <-. by rewrite app_nil_r.
  - intros key v. by eapply parsed_lookup_merge.
Qed.

(** ** The exporter, continued *)

Lemma write_csv_total (data_list : list dict) csv_file cols :
  exists l, write_csv fs data_list csv_file cols = (Ret tt, l).
Proof.
  destruct (os_path_isdir fs csv_file) eqn:Hdir.
  - rewrite write_csv_refused by (by left). by eexists.
  - destruct (decide (csv_file = "")) as [Hname | Hname].
    + rewrite write_csv_refused by (by right). by eexists.
    + rewrite write_csv_opened by done. by eexists.
Qed.


(** X9: when the output path is a directory or the empty path, the
    exporter catches the error of the open, prints the I/O error line and
    returns; neither the header nor any row reaches the writer. *)
Theorem write_csv_open_failure (data_list : list dict) csv_file cols :
  os_path_isdir fs csv_file = true \/ csv_file = "" ->
  write_csv fs data_list csv_file cols = (Ret tt, [Print (MsgIOError csv_file)]).
Proof.
  intros Hbad. unfold write_csv.
  assert (Hopen : exists e, is_IOError e = true /\
                    open_write fs csv_file = (Raise e, [])).
  { unfold open_write.
    destruct (os_path_isdir fs csv_file); [by exists IsADirectoryError |].
    destruct Hbad as [? | ->]; [done | by exists FileNotFoundError]. }
  destruct Hopen as (e & He & ->).
  unfold try_except_IOError. cbn [bind]. by rewrite He.
Qed.

(** ** The walker, continued *)

Lemma bind_ret_l {A B} (a : A) (k : A -> M B) : bind (ret a) k = k a.
Proof. unfold ret. rewrite bind_Ret. by destruct (k a). Qed.

Lemma process_directory_nonempty dirpath r l :
  process_directory dirpath = (Ret (Some r), l) -> truthy (Some r) = true.
Proof.
  intros Hrun. pose proof (process_directory_dom _ _ _ Hrun) as Hdom.
  unfold truthy, dict_bool. rewrite <- size_dom, Hdom. reflexivity.
Qed.

(** One turn of the loop appends the record of the entry, if it is
    accepted, and nothing otherwise. *)
Lemma main_step_accepted root_dir data_list dir_name data_list' l :
  main_step fromstring py_float transform fs root_dir data_list dir_name
  = (Ret data_list', l) ->
  data_list' =
    data_list
    ++ option_list (accepted fromstring py_float transform fs root_dir dir_name).
Proof.
  unfold main_step, accepted.
  destruct (os_path_isdir fs (os_path_join root_dir dir_name));
    [| intros [= <- _]; by rewrite app_nil_r].
  destruct (os_path_isdir fs
              (os_path_join (os_path_join root_dir dir_name) "menuTabs"));
    [| intros [= <- _]; by rewrite app_nil_r].
  simpl andb. cbv iota.
  destruct (process_directory _) as [[o|e] l0] eqn:Hrun; [| done].
  rewrite bind_Ret. cbn [fst].
  destruct o as [d|]; [| intros [= <- _]; by rewrite app_nil_r].
  rewrite (process_directory_nonempty _ _ _ Hrun). by intros [= <- _].
Qed.

Lemma walk_result root_dir dir_names data_list data_list' l :
  walk fromstring py_float transform fs root_dir dir_names data_list
  = (Ret data_list', l) ->
  data_list' =
    data_list
    ++ omap (accepted fromstring py_float transform fs root_dir) dir_names.
Proof.
  revert data_list l.
  induction dir_names as [|dir_name rest IH]; intros data_list l.
  - intros [= <- _]. by rewrite app_nil_r.
  - unfold walk. cbn [for_each].
    destruct (main_step _ _ _ _ _ _ _) as [[data_list1|e] l1] eqn:Hstep;
      [| done].
    rewrite bind_Ret.
    destruct (for_each _ rest data_list1) as [o l2] eqn:Hrest.
    cbn [fst snd]. intros [= -> _].
    rewrite (IH _ _ Hrest), (main_step_accepted _ _ _ _ _ Hstep).
    rewrite <- app_assoc. f_equal. cbn [omap list_omap].
    by destruct (accepted _ _ _ _ _ _).
Qed.

Lemma omap_length_le {A B} (f : A -> option B) (l : list A) :
  length (omap f l) <= length l.
Proof.
  induction l as [|x l IH]; [done |].
  cbn [omap list_omap]. destruct (f x); simpl; lia.
Qed.

(** X11: when the walk returns, the records it gathered are, after those
    it started with, the records of the accepted entries in listing
    order: one per entry that is a directory with a [menuTabs] directory
    for which the builder returns a record, none for any other entry. *)
Theorem walk_accepts_in_order root_dir dir_names data_list data_list' l :
  walk fromstring py_float transform fs root_dir dir_names data_list
  = (Ret data_list', l) ->
  data_list' =
    data_list
    ++ omap (accepted fromstring py_float transform fs root_dir) dir_names /\
  length data_list' <= length data_list + length dir_names.
Proof.
  intros Hwalk. pose proof (walk_result _ _ _ _ _ Hwalk) as ->.
  split; [done |]. rewrite length_app.
  pose proof (omap_length_le
                (accepted fromstring py_float transform fs root_dir) dir_names).
  lia.
Qed.

Lemma accepted_dom root_dir dir_name r :
  accepted fromstring py_float transform fs root_dir dir_name = Some r ->
  dom r = list_to_set csv_columns.
Proof.
  unfold accepted. destruct (_ && _); [| done].
  destruct (process_directory _) as [[[d|]|e] l] eqn:Hrun; try done.
  cbn [fst]. intros [= <-]. by eapply process_directory_dom.
Qed.

(** X12: every record the walk adds carries exactly the seven column
    names as keys, so no cell of a row written from it is a default. *)
Theorem walk_records_complete root_dir dir_names data_list l :
  walk fromstring py_float transform fs root_dir dir_names [] = (Ret data_list, l) ->
  Forall
    (fun data =>
       dom data = list_to_set csv_columns /\
       Forall (fun key => is_Some (data !! key)) csv_columns)
    data_list.
Proof.
  intros Hwalk. rewrite (walk_result _ _ _ _ _ Hwalk). cbn [app].
  apply Forall_forall. intros r (dir_name & _ & Hacc)%list_elem_of_omap.
  pose proof (accepted_dom _ _ _ Hacc) as Hdom. split; [done |].
  apply Forall_forall. intros key Hkey.
  apply elem_of_dom. rewrite Hdom. by apply elem_of_list_to_set.
Qed.

(** ** The whole run, continued *)

Lemma main_step_outcome root_dir data_list dir_name :
  match entry_error fs root_dir dir_name with
  | Some e =>
      exists l,
        main_step fromstring py_float transform fs root_dir data_list dir_name
        = (Raise e, l)
  | None =>
      exists data_list' l,
        main_step fromstring py_float transform fs root_dir data_list dir_name
        = (Ret data_list', l)
  end.
Proof.
  unfold entry_error, main_step.
  destruct (os_path_isdir fs (os_path_join root_dir dir_name));
    [| by eexists _, _].
  destruct (os_path_isdir fs
              (os_path_join (os_path_join root_dir dir_name) "menuTabs"));
    [| by eexists _, _].
  cbn [andb].
  pose proof (process_directory_outcome
                (os_path_join (os_path_join root_dir dir_name) "menuTabs"))
    as Hout.
  destruct (descriptor_error fs _) as [e|].
  - destruct Hout as [l ->]. by eexists.
  - destruct Hout as (o & l & ->). rewrite bind_Ret.
    destruct o as [d|]; [destruct (truthy (Some d)) |]; by eexists _, _.
Qed.

(** The walk raises what its first blocked entry raises, whatever the
    records gathered so far, and returns when no entry is blocked. *)
Lemma walk_outcome root_dir dir_names data_list :
  match walk_error fs root_dir dir_names with
  | Some e =>
      exists l,
        walk fromstring py_float transform fs root_dir dir_names data_list
        = (Raise e, l)
  | None =>
      exists data_list' l,
        walk fromstring py_float transform fs root_dir dir_names data_list
        = (Ret data_list', l)
  end.
Proof.
  revert data_list.
  induction dir_names as [|dir_name rest IH]; intros data_list.
  - by eexists _, _.
  - cbn [walk_error]. unfold walk. cbn [for_each].
    pose proof (main_step_outcome root_dir data_list dir_name) as Hstep.
    destruct (entry_error fs root_dir dir_name) as [e|].
    + destruct Hstep as [l ->]. by eexists.
    + destruct Hstep as (data_list1 & l1 & ->). rewrite bind_Ret.
      specialize (IH data_list1). unfold walk in IH.
      destruct (walk_error fs root_dir rest) as [e|].
      * destruct IH as [l ->]. by eexists.
      * destruct IH as (data_list2 & l2 & ->). by eexists _, _.
Qed.

Lemma walk_error_blocked root_dir dir_names :
  existsb (blocked fs root_dir) dir_names = false ->
  walk_error fs root_dir dir_names = None.
Proof.
  induction dir_names as [|dir_name rest IH]; [done |].
  cbn [existsb walk_error]. unfold blocked at 1.
  destruct (entry_error fs root_dir dir_name); [done |]. exact IH.
Qed.

(** X13: once the root is listed, the run raises exactly when some entry
    is blocked, and it raises what the first blocked entry raises
    ([IsADirectoryError] for a descriptor name that is a directory, the
    operating system's error for an unreadable descriptor). In every
    other case the run returns. *)
Theorem main_from_raises root_dir dir_names e :
  fs !! root_dir = Some (Directory dir_names) ->
  (exists l, main_from fromstring py_float transform fs root_dir = (Raise e, l))
  <-> walk_error fs root_dir dir_names = Some e.
Proof.
  intros Hroot. unfold main_from, os_listdir. rewrite Hroot. rewrite bind_ret_l.
  pose proof (walk_outcome root_dir dir_names []) as Hwalk.
  destruct (walk_error fs root_dir dir_names) as [e'|].
  - destruct Hwalk as [l ->]. split.
    + intros [l' [= <- _]]. done.
    + intros [= <-]. by eexists.
  - destruct Hwalk as (data_list & l & ->). rewrite bind_Ret.
    destruct (write_csv_total data_list "output.csv" csv_columns) as [l' ->].
    split; [by intros [l'' ?] | done].
Qed.

(** *** What a run prints *)

Lemma bind_prints {A B} (m : M A) (k : A -> M B) :
  Forall (fun ev => is_print ev = true) m.2 ->
  (forall a, Forall (fun ev => is_print ev = true) (k a).2) ->
  Forall (fun ev => is_print ev = true) (bind m k).2.
Proof.
  destruct m as [[a|e] l]; [| done].
  intros Hm Hk. rewrite bind_Ret. cbn [snd]. apply Forall_app. by split.
Qed.

Lemma for_each_prints {A B} (body : B -> A -> M B) (xs : list A) (acc : B) :
  (forall acc x, Forall (fun ev => is_print ev = true) (body acc x).2) ->
  Forall (fun ev => is_print ev = true) (for_each body xs acc).2.
Proof.
  intros Hbody. revert acc. induction xs as [|x xs IH]; intros acc.
  - constructor.
  - cbn [for_each]. by apply bind_prints.
Qed.

Lemma parse_0_txt_prints file_path :
  Forall (fun ev => is_print ev = true) (parse_0_txt file_path).2.
Proof.
  unfold parse_0_txt, open_read.
  destruct (fs !! file_path) as [[content|e|entries]|]; try by constructor.
  rewrite bind_ret_l.
  repeat case_match; by repeat constructor.
Qed.

Lemma parse_8_txt_prints file_path :
  Forall (fun ev => is_print ev = true) (parse_8_txt file_path).2.
Proof.
  unfold parse_8_txt, open_read.
  destruct (fs !! file_path) as [[content|e|entries]|]; try by constructor.
  rewrite bind_ret_l.
  destruct (fromstring content) as [root|]; [| by repeat constructor].
  apply bind_prints; [| by constructor].
  apply for_each_prints. intros acc [[elem_name key_name] attr_name].
  unfold parse_8_step. destruct (find root elem_name); by repeat constructor.
Qed.

Lemma process_directory_prints dirpath :
  Forall (fun ev => is_print ev = true) (process_directory dirpath).2.
Proof.
  unfold process_directory.
  destruct (negb _ || negb _); [by repeat constructor |].
  apply bind_prints; [apply parse_0_txt_prints |]. intros o0.
  apply bind_prints; [apply parse_8_txt_prints |]. intros o8.
  destruct o0, o8; by repeat constructor.
Qed.

Lemma walk_prints root_dir dir_names data_list :
  Forall (fun ev => is_print ev = true)
    (walk fromstring py_float transform fs root_dir dir_names data_list).2.
Proof.
  apply for_each_prints. intros acc dir_name. unfold main_step.
  destruct (os_path_isdir fs (os_path_join root_dir dir_name));
    [| by repeat constructor].
  destruct (os_path_isdir fs _); [| by repeat constructor].
  apply bind_prints; [apply process_directory_prints |]. intros o.
  destruct o as [d|]; [destruct (truthy (Some d)) |]; by constructor.
Qed.

(** X14: a run that raises has only printed: the output file was never
    opened and no row was written, so the records of the directories
    walked before the failing one are lost. *)
Theorem main_from_raise_writes_nothing root_dir e l :
  main_from fromstring py_float transform fs root_dir = (Raise e, l) ->
  Forall (fun ev => is_print ev = true) l.
Proof.
  unfold main_from, os_listdir.
  destruct (fs !! root_dir) as [[content|e'|dir_names]|];
    try (intros [= _ <-]; constructor).
  rewrite bind_ret_l.
  pose proof (walk_prints root_dir dir_names []) as Hprints.
  destruct (walk _ _ _ _ _ _ _) as [[data_list|e'] lw]; cbn [snd] in Hprints.
  - rewrite bind_Ret.
    destruct (write_csv_total data_list "output.csv" csv_columns) as [l' ->].
    done.
  - by intros [= _ <-].
Qed.

(** X15: end to end, when the root is listed, no entry is blocked and
    [output.csv] can be opened, the run prints its diagnostics and then
    writes the header followed by exactly one row per accepted entry, in
    listing order, and reports success. *)
Theorem main_from_rows root_dir dir_names :
  fs !! root_dir = Some (Directory dir_names) ->
  existsb (blocked fs root_dir) dir_names = false ->
  os_path_isdir fs "output.csv" = false ->
  exists l,
    Forall (fun ev => is_print ev = true) l /\
    main_from fromstring py_float transform fs root_dir
    = (Ret tt,
       l ++ [CsvOpen "output.csv"; CsvRow "output.csv" (map VStr csv_columns)]
         ++ map (fun data =>
                   CsvRow "output.csv" (map (dict_get data) csv_columns))
              (omap (accepted fromstring py_float transform fs root_dir)
                 dir_names)
         ++ [Print (MsgWritten "output.csv")]).
Proof.
  intros Hroot Hfree Hout.
  pose proof (walk_outcome root_dir dir_names []) as Hwalk.
  rewrite (walk_error_blocked _ _ Hfree) in Hwalk.
  destruct Hwalk as (data_list & l & Hwalk).
  exists l. split.
  - pose proof (walk_prints root_dir dir_names []) as Hprints.
    by rewrite Hwalk in Hprints.
  - unfold main_from, os_listdir. rewrite Hroot, bind_ret_l, Hwalk, bind_Ret.
    rewrite write_csv_opened by done. cbn [fst snd].
    by rewrite (walk_result _ _ _ _ _ Hwalk).
Qed.

(** ** Recovery over the whole run *)





End Properties.

(** * The sample corpus, run *)

Ltac run := vm_compute; reflexivity.

(** C1, as written, fails on a descriptor that carries a [description]
    element with [htmlText='Baz'] and no [explanation] element: the
    [description] field of the record is the empty string. *)
Lemma description_not_read_from_description_element :
  Sample.fromstring Sample.xml_8_description = Some Sample.root_8_description /\
  html_text Sample.root_8_description "description" = "Baz" /\
  parse_8_txt Sample.fromstring Sample.degraded "corpus/e/menuTabs/8.txt"
  = (Ret (Some Sample.metadata_e),
     [Print (MsgNoElement "explanation" "corpus/e/menuTabs/8.txt")]) /\
  Sample.metadata_e !! "description" = Some (VStr "") /\
  Sample.metadata_e !! "description"
  <> Some (VStr (html_text Sample.root_8_description "description")).
Proof.
  repeat split; try run.
  vm_compute. discriminate.
Qed.

Lemma parse_8_txt_fields_witness :
  Sample.corpus !! "corpus/a/menuTabs/8.txt" = Some (File Sample.xml_8_ok) /\
  Sample.fromstring Sample.xml_8_ok = Some Sample.root_8_ok /\
  exists r l,
    parse_8_txt Sample.fromstring Sample.corpus "corpus/a/menuTabs/8.txt"
    = (Ret (Some r), l) /\
    r !! "name" = Some (VStr (html_text Sample.root_8_ok "name")) /\
    r !! "translation" = Some (VStr (html_text Sample.root_8_ok "translation")) /\
    r !! "description" = Some (VStr (html_text Sample.root_8_ok "explanation")).
Proof.
  assert (Hfile : Sample.corpus !! "corpus/a/menuTabs/8.txt"
                  = Some (File Sample.xml_8_ok)) by run.
  assert (Hxml : Sample.fromstring Sample.xml_8_ok = Some Sample.root_8_ok)
    by run.
  split; [exact Hfile |]. split; [exact Hxml |].
  exact (parse_8_txt_fields Sample.fromstring Sample.corpus
           "corpus/a/menuTabs/8.txt" Sample.xml_8_ok Sample.root_8_ok
           Hfile Hxml).
Defined.

Lemma parse_0_txt_non_numeric_witness :
  Sample.py_float "abc" = None /\
  exists r l,
    parse_0_txt Sample.fromstring Sample.py_float Sample.transform
      Sample.degraded "corpus/e/menuTabs/0.txt" = (Ret (Some r), l) /\
    r !! "latitude" = Some (VStr "") /\
    r !! "longitude" = Some (VStr "") /\
    r !! "projection_x" = Some (VStr "abc") /\
    r !! "projection_y" = Some (VStr "234671").
Proof.
  split; [run |].
  apply (parse_0_txt_non_numeric Sample.fromstring Sample.py_float
           Sample.transform Sample.degraded "corpus/e/menuTabs/0.txt"
           Sample.xml_0_abc Sample.root_0_abc
           (Sample.elem "projection" [("x", "abc"); ("y", "234671")] [])).
  - run.
  - run.
  - run.
  - left. run.
Defined.

Lemma parse_0_txt_missing_attribute_witness :
  Sample.py_float "" = None /\
  exists r l,
    parse_0_txt Sample.fromstring Sample.py_float Sample.transform
      Sample.degraded "corpus/g/menuTabs/0.txt" = (Ret (Some r), l) /\
    r !! "projection_x" = Some (VStr "") /\
    r !! "latitude" = Some (VStr "") /\
    r !! "longitude" = Some (VStr "").
Proof.
  assert (Hempty : Sample.py_float "" = None) by run.
  split; [exact Hempty |].
  destruct (parse_0_txt_missing_attribute Sample.fromstring Sample.py_float
              Sample.transform Sample.degraded "corpus/g/menuTabs/0.txt"
              Sample.xml_0_no_x Sample.root_0_no_x
              (Sample.elem "projection" [("y", "234671")] []) Hempty)
    as (r & l & Hrun & Hx & _ & Hlat & Hlon).
  - run.
  - run.
  - run.
  - left. run.
  - exists r, l. repeat split; try done. apply Hx. run.
Defined.

Lemma process_directory_no_projection_witness :
  find Sample.root_0_no_projection "projection" = None /\
  exists r l,
    process_directory Sample.fromstring Sample.py_float Sample.transform
      Sample.degraded "corpus/f/menuTabs" = (Ret (Some r), l) /\
    r !! "projection_x" = Some (VStr "") /\
    r !! "projection_y" = Some (VStr "") /\
    r !! "latitude" = Some (VStr "") /\
    r !! "longitude" = Some (VStr "") /\
    r !! "name" = Some (VStr (html_text Sample.root_8_ok "name")) /\
    r !! "translation" = Some (VStr (html_text Sample.root_8_ok "translation")) /\
    r !! "description" = Some (VStr (html_text Sample.root_8_ok "explanation")).
Proof.
  split; [run |].
  apply (process_directory_no_projection Sample.fromstring Sample.py_float
           Sample.transform Sample.degraded "corpus/f/menuTabs"
           Sample.xml_0_no_projection Sample.xml_8_ok
           Sample.root_0_no_projection Sample.root_8_ok); run.
Defined.

Lemma process_directory_truthy_witness :
  process_directory Sample.fromstring Sample.py_float Sample.transform
    Sample.corpus "corpus/a/menuTabs" = (Ret (Some Sample.record_a), []) /\
  truthy (Some Sample.record_a) = is_not_None (Some Sample.record_a) /\
  forall r, Some Sample.record_a = Some r ->
    dom r = list_to_set csv_columns /\ size r = 7 /\ r <> ∅.
Proof.
  assert (Hrun : process_directory Sample.fromstring Sample.py_float
                   Sample.transform Sample.corpus "corpus/a/menuTabs"
                 = (Ret (Some Sample.record_a), [])) by run.
  split; [exact Hrun |].
  exact (process_directory_truthy Sample.fromstring Sample.py_float
           Sample.transform Sample.corpus "corpus/a/menuTabs"
           (Some Sample.record_a) [] Hrun).
Defined.

(** C6, as written, fails where [0.txt] is a directory: the name is
    not present as a regular file, the existence test passes, and the
    builder raises instead of returning [None]. *)
Lemma process_directory_raises_on_directory_descriptor :
  Sample.nested !! "corpus/h/menuTabs/0.txt" = Some (Directory []) /\
  os_path_exists Sample.nested "corpus/h/menuTabs/0.txt" = true /\
  os_path_exists Sample.nested "corpus/h/menuTabs/8.txt" = true /\
  process_directory Sample.fromstring Sample.py_float Sample.transform
    Sample.nested "corpus/h/menuTabs" = (Raise IsADirectoryError, []) /\
  process_directory Sample.fromstring Sample.py_float Sample.transform
    Sample.nested "corpus/h/menuTabs"
  <> (Ret None, [Print (MsgSkipMissing "corpus/h/menuTabs")]).
Proof.
  repeat split; try run.
  vm_compute. discriminate.
Qed.

Lemma process_directory_missing_file_witness :
  os_path_exists Sample.corpus "corpus/b/menuTabs/8.txt" = false /\
  process_directory Sample.fromstring Sample.py_float Sample.transform
    Sample.corpus "corpus/b/menuTabs"
  = (Ret None, [Print (MsgSkipMissing "corpus/b/menuTabs")]) /\
  exists l,
    main_step Sample.fromstring Sample.py_float Sample.transform
      Sample.corpus "corpus" [Sample.record_a] "b"
    = (Ret [Sample.record_a], l).
Proof.
  assert (Hmissing : os_path_exists Sample.corpus "corpus/b/menuTabs/8.txt"
                     = false) by run.
  split; [exact Hmissing |].
  exact (process_directory_missing_file Sample.fromstring Sample.py_float
           Sample.transform Sample.corpus "corpus" "b" [Sample.record_a]
           (or_intror Hmissing)).
Defined.

(** C3, as written, fails where the malformed [0.txt] lies beside a
    directory named [8.txt]: the spatial parser returns [None], then the
    open of [8.txt] raises, and the walk stops before the next
    directory. *)
Lemma malformed_beside_directory_raises :
  malformed Sample.fromstring Outlying.beside "corpus/c/menuTabs/0.txt" /\
  parse_0_txt Sample.fromstring Sample.py_float Sample.transform
    Outlying.beside "corpus/c/menuTabs/0.txt"
  = (Ret None, [Print (MsgXmlError "corpus/c/menuTabs/0.txt")]) /\
  process_directory Sample.fromstring Sample.py_float Sample.transform
    Outlying.beside "corpus/c/menuTabs"
  = (Raise IsADirectoryError,
     [Print (MsgXmlError "corpus/c/menuTabs/0.txt")]) /\
  walk Sample.fromstring Sample.py_float Sample.transform
    Outlying.beside "corpus" ["c"; "a"] []
  = (Raise IsADirectoryError,
     [Print (MsgXmlError "corpus/c/menuTabs/0.txt")]) /\
  main_from Sample.fromstring Sample.py_float Sample.transform
    Outlying.beside "corpus"
  = (Raise IsADirectoryError,
     [Print (MsgXmlError "corpus/c/menuTabs/0.txt")]).
Proof.
  split; [exists Sample.xml_malformed; split; run |].
  repeat split; run.
Qed.

Lemma malformed_directory_skipped_witness :
  malformed Sample.fromstring Sample.corpus "corpus/c/menuTabs/0.txt" /\
  opens_or_absent Sample.corpus "corpus/c/menuTabs/8.txt" = true /\
  (exists l,
     process_directory Sample.fromstring Sample.py_float Sample.transform
       Sample.corpus "corpus/c/menuTabs" = (Ret None, l)) /\
  exists l,
    walk Sample.fromstring Sample.py_float Sample.transform Sample.corpus
      "corpus" ["c"; "d"; "notes"] [Sample.record_a]
    = ((walk Sample.fromstring Sample.py_float Sample.transform Sample.corpus
          "corpus" ["d"; "notes"] [Sample.record_a]).1,
       l ++ (walk Sample.fromstring Sample.py_float Sample.transform
               Sample.corpus "corpus" ["d"; "notes"] [Sample.record_a]).2).
Proof.
  assert (Hbad : malformed Sample.fromstring Sample.corpus
                   "corpus/c/menuTabs/0.txt").
  { exists Sample.xml_malformed. split; run. }
  assert (Hother : opens_or_absent Sample.corpus "corpus/c/menuTabs/8.txt"
                   = true) by run.
  split; [exact Hbad |]. split; [exact Hother |].
  destruct (malformed_directory_skipped Sample.fromstring Sample.py_float
              Sample.transform Sample.corpus "corpus" "c" ["d"; "notes"]
              [Sample.record_a] (or_introl (conj Hbad Hother)))
    as (_ & _ & Hrun & Hwalk).
  split; [exact Hrun | exact Hwalk].
Defined.

Lemma write_csv_rows_witness :
  os_path_isdir Sample.corpus "output.csv" = false /\
  write_csv Sample.corpus [Sample.record_a; Sample.metadata_e] "output.csv"
    csv_columns
  = (Ret tt,
     [ CsvOpen "output.csv";
       CsvRow "output.csv"
         [ VStr "projection_x"; VStr "projection_y"; VStr "latitude";
           VStr "longitude"; VStr "name"; VStr "translation";
           VStr "description" ];
       CsvRow "output.csv"
         [ VStr "315904"; VStr "234671"; VFloat 53.375%float;
           VFloat (-6.25)%float; VStr "Foo"; VStr "Bar"; VStr "Baz" ];
       CsvRow "output.csv"
         [ VStr ""; VStr ""; VStr ""; VStr ""; VStr "Foo"; VStr "Bar";
           VStr "" ];
       Print (MsgWritten "output.csv") ]).
Proof.
  assert (Hdir : os_path_isdir Sample.corpus "output.csv" = false) by run.
  split; [exact Hdir |].
  rewrite (write_csv_rows Sample.corpus [Sample.record_a; Sample.metadata_e]
             "output.csv" Hdir); [run | discriminate].
Defined.



(** * The further properties, run *)

Lemma parse_0_txt_transformed_witness :
  exists r,
    parse_0_txt Sample.fromstring Sample.py_float Sample.transform
      Sample.corpus "corpus/a/menuTabs/0.txt" = (Ret (Some r), []) /\
    r !! "longitude" = Some (VFloat (-6.25)%float) /\
    r !! "latitude" = Some (VFloat 53.375%float) /\
    r !! "projection_x" = Some (VStr "315904") /\
    r !! "projection_y" = Some (VStr "234671").
Proof.
  apply (parse_0_txt_transformed Sample.fromstring Sample.py_float
           Sample.transform Sample.corpus "corpus/a/menuTabs/0.txt"
           Sample.xml_0_ok Sample.root_0_ok
           (Sample.elem "projection" [("x", "315904"); ("y", "234671")] [])
           315904%float 234671%float (-6.25)%float 53.375%float); run.
Defined.

Lemma parse_0_txt_transform_failure_witness :
  exists r m,
    parse_0_txt Sample.fromstring Sample.py_float Outlying.failing_transform
      Sample.corpus "corpus/a/menuTabs/0.txt" = (Ret (Some r), [Print m]) /\
    r !! "latitude" = Some (VStr "") /\
    r !! "longitude" = Some (VStr "") /\
    r !! "projection_x" = Some (VStr "315904") /\
    r !! "projection_y" = Some (VStr "234671").
Proof.
  apply (parse_0_txt_transform_failure Sample.fromstring Sample.py_float
           Outlying.failing_transform Sample.corpus "corpus/a/menuTabs/0.txt"
           Sample.xml_0_ok Sample.root_0_ok
           (Sample.elem "projection" [("x", "315904"); ("y", "234671")] [])
           315904%float 234671%float); try run.
  intros longitude latitude. discriminate.
Defined.

Lemma parse_0_txt_coordinates_paired_witness :
  parse_0_txt Sample.fromstring Sample.py_float Sample.transform
    Sample.corpus "corpus/a/menuTabs/0.txt"
  = (Ret (Some Outlying.spatial_a), []) /\
  exists proj_x proj_y,
    Outlying.spatial_a !! "projection_x" = Some (VStr proj_x) /\
    Outlying.spatial_a !! "projection_y" = Some (VStr proj_y) /\
    ((Outlying.spatial_a !! "latitude" = Some (VStr "") /\
      Outlying.spatial_a !! "longitude" = Some (VStr "")) \/
     exists easting northing longitude latitude,
       Sample.py_float proj_x = Some easting /\
       Sample.py_float proj_y = Some northing /\
       Sample.transform easting northing = Transformed longitude latitude /\
       Outlying.spatial_a !! "latitude" = Some (VFloat latitude) /\
       Outlying.spatial_a !! "longitude" = Some (VFloat longitude)).
Proof.
  assert (Hrun : parse_0_txt Sample.fromstring Sample.py_float
                   Sample.transform Sample.corpus "corpus/a/menuTabs/0.txt"
                 = (Ret (Some Outlying.spatial_a), [])) by run.
  split; [exact Hrun |].
  exact (parse_0_txt_coordinates_paired Sample.fromstring Sample.py_float
           Sample.transform Sample.corpus "corpus/a/menuTabs/0.txt"
           Outlying.spatial_a [] Hrun).
Defined.

Lemma parse_8_txt_diagnostics_witness :
  missing_elements Sample.root_8_description = ["explanation"] /\
  exists r,
    parse_8_txt Sample.fromstring Sample.degraded "corpus/e/menuTabs/8.txt"
    = (Ret (Some r),
       map (fun elem_name =>
              Print (MsgNoElement elem_name "corpus/e/menuTabs/8.txt"))
         (missing_elements Sample.root_8_description)).
Proof.
  split; [run |].
  apply (parse_8_txt_diagnostics Sample.fromstring Sample.degraded
           "corpus/e/menuTabs/8.txt" Sample.xml_8_description
           Sample.root_8_description); run.
Defined.

Lemma process_directory_both_malformed_witness :
  process_directory Sample.fromstring Sample.py_float Sample.transform
    Outlying.broken "corpus/k/menuTabs"
  = (Ret None,
     [ Print (MsgXmlError "corpus/k/menuTabs/0.txt");
       Print (MsgXmlError "corpus/k/menuTabs/8.txt");
       Print (MsgSkipParse "corpus/k/menuTabs") ]).
Proof.
  apply (process_directory_both_malformed Sample.fromstring Sample.py_float
           Sample.transform Outlying.broken "corpus/k/menuTabs");
    (exists Sample.xml_malformed; split; run).
Defined.

Lemma process_directory_keeps_fields_witness :
  exists record_0 record_8 l0 l8,
    parse_0_txt Sample.fromstring Sample.py_float Sample.transform
      Sample.corpus "corpus/a/menuTabs/0.txt" = (Ret (Some record_0), l0) /\
    parse_8_txt Sample.fromstring Sample.corpus "corpus/a/menuTabs/8.txt"
    = (Ret (Some record_8), l8) /\
    [] = l0 ++ l8 /\
    forall key v,
      Sample.record_a !! key = Some v <->
      record_0 !! key = Some v \/ record_8 !! key = Some v.
Proof.
  apply (process_directory_keeps_fields Sample.fromstring Sample.py_float
           Sample.transform Sample.corpus "corpus/a/menuTabs"
           Sample.record_a []).
  run.
Defined.

Lemma walk_accepts_in_order_witness :
  omap (accepted Sample.fromstring Sample.py_float Sample.transform
          Sample.corpus "corpus") ["a"; "b"; "c"; "d"; "notes"]
  = [Sample.record_a] /\
  [Sample.record_a] =
    [] ++ omap (accepted Sample.fromstring Sample.py_float Sample.transform
                  Sample.corpus "corpus") ["a"; "b"; "c"; "d"; "notes"] /\
  length [Sample.record_a] <= length ([] : list dict) + length ["a"; "b"; "c"; "d"; "notes"].
Proof.
  split; [run |].
  apply (walk_accepts_in_order Sample.fromstring Sample.py_float
           Sample.transform Sample.corpus "corpus"
           ["a"; "b"; "c"; "d"; "notes"] [] [Sample.record_a]
           (walk Sample.fromstring Sample.py_float Sample.transform
              Sample.corpus "corpus" ["a"; "b"; "c"; "d"; "notes"] []).2).
  run.
Defined.

Lemma walk_records_complete_witness :
  Forall
    (fun data =>
       dom data = list_to_set csv_columns /\
       Forall (fun key => is_Some (data !! key)) csv_columns)
    [Sample.record_a].
Proof.
  apply (walk_records_complete Sample.fromstring Sample.py_float
           Sample.transform Sample.corpus "corpus"
           ["a"; "b"; "c"; "d"; "notes"] [Sample.record_a]
           (walk Sample.fromstring Sample.py_float Sample.transform
              Sample.corpus "corpus" ["a"; "b"; "c"; "d"; "notes"] []).2).
  run.
Defined.

Lemma write_csv_open_failure_witness :
  os_path_isdir Outlying.occupied "output.csv" = true /\
  write_csv Outlying.occupied [Sample.record_a] "output.csv" csv_columns
  = (Ret tt, [Print (MsgIOError "output.csv")]).
Proof.
  assert (Hdir : os_path_isdir Outlying.occupied "output.csv" = true) by run.
  split; [exact Hdir |].
  exact (write_csv_open_failure Outlying.occupied [Sample.record_a]
           "output.csv" csv_columns (or_introl Hdir)).
Defined.

Lemma main_from_raises_witness :
  walk_error Outlying.locked "corpus" ["a"; "p"] = Some PermissionError /\
  ((exists l,
      main_from Sample.fromstring Sample.py_float Sample.transform
        Outlying.locked "corpus" = (Raise PermissionError, l))
   <-> walk_error Outlying.locked "corpus" ["a"; "p"] = Some PermissionError).
Proof.
  split; [run |].
  apply (main_from_raises Sample.fromstring Sample.py_float Sample.transform
           Outlying.locked "corpus" ["a"; "p"] PermissionError).
  run.
Defined.

Lemma main_from_raise_writes_nothing_witness :
  main_from Sample.fromstring Sample.py_float Sample.transform
    Outlying.late "corpus"
  = (Raise IsADirectoryError, [Print (MsgSkipMissing "corpus/m/menuTabs")]) /\
  Forall (fun ev => is_print ev = true)
    [Print (MsgSkipMissing "corpus/m/menuTabs")].
Proof.
  assert (Hrun : main_from Sample.fromstring Sample.py_float Sample.transform
                   Outlying.late "corpus"
                 = (Raise IsADirectoryError,
                    [Print (MsgSkipMissing "corpus/m/menuTabs")])) by run.
  split; [exact Hrun |].
  exact (main_from_raise_writes_nothing Sample.fromstring Sample.py_float
           Sample.transform Outlying.late "corpus" IsADirectoryError
           [Print (MsgSkipMissing "corpus/m/menuTabs")] Hrun).
Defined.

Lemma main_from_rows_witness :
  exists l,
    Forall (fun ev => is_print ev = true) l /\
    main_from Sample.fromstring Sample.py_float Sample.transform
      Sample.corpus "corpus"
    = (Ret tt,
       l ++ [CsvOpen "output.csv"; CsvRow "output.csv" (map VStr csv_columns)]
         ++ map (fun data =>
                   CsvRow "output.csv" (map (dict_get data) csv_columns))
              (omap (accepted Sample.fromstring Sample.py_float
                       Sample.transform Sample.corpus "corpus")
                 ["a"; "b"; "c"; "d"; "notes"])
         ++ [Print (MsgWritten "output.csv")]).
Proof.
  apply (main_from_rows Sample.fromstring Sample.py_float Sample.transform
           Sample.corpus "corpus" ["a"; "b"; "c"; "d"; "notes"]); run.
Defined.
